(** * ghi-scraper: a shallow embedding of the two scrapers

    The repository holds two programs that save the issues of a GitHub
    project as JSON files:
    - [src/ghi_scraper.py], the list variant, which walks the REST
      endpoint page by page ([PAGE_SIZE] items per page);
    - [src/ghi_scraper/__main__.py], the graph variant, which walks a
      GraphQL connection with a cursor.

    Both are modelled here as programs of one state-and-error monad over a
    world made of a file system and a trace of observable events.  The
    remote service is an oracle giving the reply of the k-th request, and
    the two unbounded loops run on fuel. *)

From Stdlib Require Import ZArith Ascii String List Bool Lia Sorted.
From stdpp Require Import base tactics option list strings pretty gmap.

Local Open Scope string_scope.
Local Open Scope list_scope.
Local Open Scope Z_scope.

(** ** Decoded JSON values

    What [response.json()] and the GraphQL client hand to the program.
    A Python [dict] keeps insertion order, hence the association list; the
    keys of a decoded object are strings.  Python's [str] is modelled by
    [string], one character per code point below 256.  Floating point
    numbers are left out of the model. *)

#[local] Set Warnings "-register-all".

Inductive json : Type :=
| JNull : json
| JBool : bool -> json
| JInt : Z -> json
| JStr : string -> json
| JArr : list json -> json
| JObj : list (string * json) -> json.

Module Dict.

(** [d[k]], [None] standing for [KeyError]. *)
Fixpoint get (k : string) (d : list (string * json)) : option json :=
  match d with
  | [] => None
  | (k', v) :: d' => if String.eqb k k' then Some v else get k d'
  end.

(** [k in d]. *)
Definition mem (k : string) (d : list (string * json)) : bool :=
  match get k d with Some _ => true | None => false end.

(** [d[k] = v]: an existing key keeps its position, a new one goes last. *)
Fixpoint set (k : string) (v : json) (d : list (string * json))
  : list (string * json) :=
  match d with
  | [] => [(k, v)]
  | (k', v') :: d' =>
      if String.eqb k k' then (k, v) :: d' else (k', v') :: set k v d'
  end.

Definition keys (d : list (string * json)) : list string := map fst d.

End Dict.

(** Truth value of a decoded JSON value, as [if x:] tests it. *)
Definition truthy (j : json) : bool :=
  match j with
  | JNull => false
  | JBool b => b
  | JInt n => negb (n =? 0)%Z
  | JStr s => negb (String.eqb s "")
  | JArr l => match l with [] => false | _ => true end
  | JObj d => match d with [] => false | _ => true end
  end.

(** ** [json.dumps(dct, indent=2, sort_keys=True)]

    The encoder of the [json] module with the defaults that go with an
    indentation: [ensure_ascii=True], separators [","] and [": "]. *)

Module Dumps.

Definition dquote : ascii := ascii_of_N 34.
Definition backslash : ascii := ascii_of_N 92.

Definition hex_digit (n : N) : ascii :=
  match n with
  | 0 => "0" | 1 => "1" | 2 => "2" | 3 => "3" | 4 => "4" | 5 => "5"
  | 6 => "6" | 7 => "7" | 8 => "8" | 9 => "9" | 10 => "a" | 11 => "b"
  | 12 => "c" | 13 => "d" | 14 => "e" | _ => "f"
  end%N%char.

(** One character of a string under [ensure_ascii]: the replacement
    table of [ESCAPE_DCT], everything else outside [' '..'~'] as a
    [\uXXXX] escape. *)
Definition escape_char (c : ascii) : string :=
  let n := N_of_ascii c in
  if (n =? 34)%N then String backslash (String dquote EmptyString)
  else if (n =? 92)%N then String backslash (String backslash EmptyString)
  else if (n =? 10)%N then "\n"
  else if (n =? 13)%N then "\r"
  else if (n =? 9)%N then "\t"
  else if (n =? 8)%N then "\b"
  else if (n =? 12)%N then "\f"
  else if ((32 <=? n) && (n <=? 126))%N then String c EmptyString
  else "\u00" +:+ String (hex_digit (n / 16)) (String (hex_digit (n mod 16)) EmptyString).

Fixpoint escape (s : string) : string :=
  match s with
  | EmptyString => EmptyString
  | String c s' => escape_char c +:+ escape s'
  end.

Definition quote : string := String dquote EmptyString.

Definition encode_str (s : string) : string := quote +:+ escape s +:+ quote.

Definition nl : string := String (ascii_of_N 10) EmptyString.

Fixpoint spaces (n : nat) : string :=
  match n with O => EmptyString | S n' => String " " (spaces n') end.

(** ["\n" + " " * (2 * level)] *)
Definition newline_indent (level : nat) : string := nl +:+ spaces (2 * level).

Fixpoint join (sep : string) (l : list string) : string :=
  match l with
  | [] => EmptyString
  | [x] => x
  | x :: l' => x +:+ sep +:+ join sep l'
  end.

(** [sorted(dct.items())] on entries whose values are already rendered:
    a stable insertion sort on the keys. *)
Fixpoint insert_sorted (e : string * string) (l : list (string * string))
  : list (string * string) :=
  match l with
  | [] => [e]
  | e' :: l' =>
      if String.leb (fst e) (fst e') then e :: l
      else e' :: insert_sorted e l'
  end.

Definition sort_items (l : list (string * string)) : list (string * string) :=
  foldr insert_sorted [] l.

Definition block (open close : string) (level : nat) (chunks : list string)
  : string :=
  match chunks with
  | [] => open +:+ close
  | _ => open +:+ newline_indent (S level)
              +:+ join ("," +:+ newline_indent (S level)) chunks
              +:+ newline_indent level +:+ close
  end.

Fixpoint encode (level : nat) (j : json) : string :=
  match j with
  | JNull => "null"
  | JBool true => "true"
  | JBool false => "false"
  | JInt n => pretty n
  | JStr s => encode_str s
  | JArr l => block "[" "]" level (map (encode (S level)) l)
  | JObj d =>
      block "{" "}" level
        (map (fun e : string * string => encode_str (fst e) +:+ ": " +:+ snd e)
           (sort_items
              (map (fun e : string * json => (fst e, encode (S level) (snd e))) d)))
  end.

Definition dumps (j : json) : string := encode 0 j.

End Dumps.

(** ** Paths and the file system

    A path is its list of components.  The file system knows which paths
    are directories and what the regular files hold; permissions and
    disk space are not modelled. *)

Definition path : Type := list string.

Definition parent (p : path) : path := removelast p.

(** [p / name] for a one-component name. *)
Definition child (p : path) (name : string) : path := p ++ [name].

Definition path_str (p : path) : string := Dumps.join "/" p.

Record filesystem : Type := Filesystem {
  dirs : gset path;
  files : gmap path string
}.

(** ** Time

    A [datetime] is a wall-clock reading in microseconds since
    0001-01-01T00:00:00 with an optional offset from UTC; a [timedelta] is a
    number of microseconds. *)

Record datetime : Type := Datetime {
  micros : Z;
  utcoffset : option Z
}.

Definition us_per_minute : Z := 60 * 1000000.
Definition us_per_hour : Z := 60 * us_per_minute.
Definition us_per_day : Z := 24 * us_per_hour.
Definition us_per_week : Z := 7 * us_per_day.

(** [datetime.max], 9999-12-31T23:59:59.999999, has ordinal 3652059. *)
Definition datetime_max : Z := 3652059 * us_per_day - 1.

(** ** Exceptions, outcomes and the world *)

Inductive exn : Type :=
| KeyError (key : string)
| TypeError
| ValueError
| AssertionError
| OverflowError
| NotImplementedError
| FileExistsError
| FileNotFoundError
| NotADirectoryError
| IsADirectoryError
| TransportError.

(** How a call ends: it returns, an exception propagates, [sys.exit] was
    called with a message, the loop was still running when the fuel of
    the model ran out, or the run met a value the model does not cover. *)
Inductive outcome (A : Type) : Type :=
| Ret (a : A)
| Raise (e : exn)
| SysExit (msg : string)
| OutOfFuel
| Unmodelled.

Arguments Ret {A} a.
Arguments Raise {A} e.
Arguments SysExit {A} msg.
Arguments OutOfFuel {A}.
Arguments Unmodelled {A}.

Inductive loglevel : Type := INFO | ERROR.

Inductive logarg : Type :=
| AStr (s : string)
| AInt (n : Z)
| AJson (j : json)
| ATime (d : datetime).

(** A query parameter of the REST request. *)
Inductive param : Type :=
| PStr (s : string)
| PInt (n : Z)
| PIso (d : datetime).      (* [d.isoformat()] *)

Record rest_request : Type := RestRequest {
  url : string;
  headers : list (string * string);
  params : list (string * param)
}.

(** The [variable_values] of the GraphQL call; [None] and a JSON null are
    the same value, [JNull]. *)
Record gql_variables : Type := GqlVariables {
  v_owner : string;
  v_name : string;
  v_since : option datetime;
  v_issues_after : json
}.

Inductive event : Type :=
| EvLog (level : loglevel) (fmt : string) (args : list logarg)
| EvGet (req : rest_request)
| EvClient (authorization : string)
| EvExecute (vars : gql_variables)
| EvMkdir (p : path)
| EvWrite (p : path) (text : string).

Record world : Type := World {
  fs : filesystem;
  trace : list event;      (* oldest first *)
  sent : nat               (* requests issued so far *)
}.

Definition M (A : Type) : Type := world -> outcome A * world.

Definition ret {A} (a : A) : M A := fun w => (Ret a, w).

Definition bind {A B} (m : M A) (k : A -> M B) : M B :=
  fun w =>
    match m w with
    | (Ret a, w') => k a w'
    | (Raise e, w') => (Raise e, w')
    | (SysExit msg, w') => (SysExit msg, w')
    | (OutOfFuel, w') => (OutOfFuel, w')
    | (Unmodelled, w') => (Unmodelled, w')
    end.

Definition raise {A} (e : exn) : M A := fun w => (Raise e, w).
Definition sys_exit {A} (msg : string) : M A := fun w => (SysExit msg, w).
Definition out_of_fuel {A} : M A := fun w => (OutOfFuel, w).

Definition lift {A} (o : outcome A) : M A := fun w => (o, w).

Declare Scope prog_scope.
Delimit Scope prog_scope with prog.
Notation "'do' x <- m ; k" := (bind m (fun x => k))
  (at level 10, x name, m at level 100, k at level 200) : prog_scope.
Notation "'run' m ; k" := (bind m (fun _ => k))
  (at level 10, m at level 100, k at level 200) : prog_scope.
Local Open Scope prog_scope.

Definition emit (e : event) : M unit :=
  fun w => (Ret tt, World (fs w) (trace w ++ [e]) (sent w)).

Definition log (level : loglevel) (fmt : string) (args : list logarg) : M unit :=
  emit (EvLog level fmt args).

(** [d[k]] on a decoded value: [KeyError] for a missing key, [TypeError]
    when the value is not an object ([None], a number, a string or a list
    subscripted with a string). *)
Definition subscript (j : json) (k : string) : M json :=
  match j with
  | JObj d => match Dict.get k d with
              | Some v => ret v
              | None => raise (KeyError k)
              end
  | _ => raise TypeError
  end.

(** [Path.is_dir()] *)
Definition is_dir (p : path) : M bool :=
  fun w => (Ret (bool_decide (p ∈ dirs (fs w))), w).

(** [Path.mkdir(exist_ok=True)], without [parents]. *)
Definition mkdir_exist_ok (p : path) : M unit :=
  fun w =>
    let f := fs w in
    if bool_decide (parent p ∈ dirs f) then
      if bool_decide (p ∈ dirs f) then (Ret tt, w)
      else if bool_decide (is_Some (files f !! p)) then (Raise FileExistsError, w)
      else (Ret tt, World (Filesystem ({[p]} ∪ dirs f) (files f))
                      (trace w ++ [EvMkdir p]) (sent w))
    else if bool_decide (is_Some (files f !! parent p)) then (Raise NotADirectoryError, w)
    else (Raise FileNotFoundError, w).

(** [Path.write_text(text)]: the file is created or truncated. *)
Definition write_text (p : path) (text : string) : M unit :=
  fun w =>
    let f := fs w in
    if bool_decide (parent p ∈ dirs f) then
      if bool_decide (p ∈ dirs f) then (Raise IsADirectoryError, w)
      else (Ret tt, World (Filesystem (dirs f) (<[p := text]> (files f)))
                      (trace w ++ [EvWrite p text]) (sent w))
    else if bool_decide (is_Some (files f !! parent p)) then (Raise NotADirectoryError, w)
    else (Raise FileNotFoundError, w).

(** One network round trip: the reply is the next one of the remote
    service, [None] standing for a transport failure or a body that does
    not decode. *)
Definition round_trip (remote : nat -> option json) (e : event) : M json :=
  fun w =>
    let w' := World (fs w) (trace w ++ [e]) (S (sent w)) in
    match remote (sent w) with
    | Some j => (Ret j, w')
    | None => (Raise TransportError, w')
    end.

(** ** Pieces shared by the two programs *)

Record ScrapInfo : Type := MkScrapInfo {
  project : string;
  out_dir : path;
  since : option datetime
}.

(** [for x in l: body(x)] *)
Fixpoint for_each {A} (l : list A) (body : A -> M unit) : M unit :=
  match l with
  | [] => ret tt
  | x :: l' => run body x; for_each l' body
  end.

Fixpoint is_prefix (p s : string) : bool :=
  match p, s with
  | EmptyString, _ => true
  | String a p', String b s' => Ascii.eqb a b && is_prefix p' s'
  | String _ _, EmptyString => false
  end.

Fixpoint is_substring (p s : string) : bool :=
  is_prefix p s ||
  match s with
  | EmptyString => false
  | String _ s' => is_substring p s'
  end.

Definition json_is_str (k : string) (j : json) : bool :=
  match j with JStr s => String.eqb s k | _ => false end.

(** [k in x] on a decoded value: key test on an object, substring test on
    a string, element test on a list, [TypeError] on the rest. *)
Definition contains (k : string) (x : json) : outcome bool :=
  match x with
  | JObj d => Ret (Dict.mem k d)
  | JStr s => Ret (is_substring k s)
  | JArr l => Ret (existsb (json_is_str k) l)
  | _ => Raise TypeError
  end.

(** The name of an item's file, [f"{item_id}.json"].  The number of an
    item is an integer; the text Python gives to other values, and the
    path that would result, are not modelled ([None]). *)
Definition item_file_name (item_id : json) : option string :=
  match item_id with
  | JInt n => Some (pretty n +:+ ".json")
  | _ => None
  end.

(** The process environment at start-up. *)
Record environ : Type := Environ {
  GITHUB_TOKEN : string;       (* [os.getenv("GITHUB_TOKEN", "")] *)
  now : Z;                     (* what [datetime.now()] reads, in microseconds *)
  schema : option string       (* the text of the schema file, if it is there *)
}.

Record arguments : Type := Arguments {
  arg_since : option string;
  arg_project : string;
  arg_out_dir : path
}.

(** *** The relative form of [--since] *)

Definition is_digit (c : ascii) : bool :=
  let n := N_of_ascii c in ((48 <=? n) && (n <=? 57))%N.

Fixpoint all_digits (s : string) : bool :=
  match s with
  | EmptyString => true
  | String c s' => is_digit c && all_digits s'
  end.

Fixpoint in_class (c : ascii) (class : string) : bool :=
  match class with
  | EmptyString => false
  | String c' class' => Ascii.eqb c c' || in_class c class'
  end.

Fixpoint split_last (s : string) : option (string * ascii) :=
  match s with
  | EmptyString => None
  | String c EmptyString => Some (EmptyString, c)
  | String c s' =>
      match split_last s' with
      | Some (front, last) => Some (String c front, last)
      | None => None
      end
  end.

(** [re.fullmatch(r"(\d+)([...])", since)] for a class of unit letters:
    the two groups of the match, or [None]. *)
Definition fullmatch_value_unit (class : string) (since : string)
  : option (string * ascii) :=
  match split_last since with
  | Some (digits, unit) =>
      if negb (String.eqb digits "") && all_digits digits && in_class unit class
      then Some (digits, unit) else None
  | None => None
  end.

Definition digit_value (c : ascii) : Z := Z.of_N (N_of_ascii c) - 48.

Fixpoint decimal_value (acc : Z) (s : string) : Z :=
  match s with
  | EmptyString => acc
  | String c s' => decimal_value (10 * acc + digit_value c) s'
  end.

(** The interpreter refuses to convert more than this many digits. *)
Definition int_max_str_digits : nat := 4300.

(** [int(text)] on a string of decimal digits. *)
Definition py_int (text : string) : outcome Z :=
  if (String.length text <=? int_max_str_digits)%nat
  then Ret (decimal_value 0 text) else Raise ValueError.

(** [timedelta(...)] from a number of microseconds: the number of days
    must have a magnitude of at most 999999999. *)
Definition timedelta (us : Z) : outcome Z :=
  if (-999999999 <=? us / us_per_day) && (us / us_per_day <=? 999999999)
  then Ret us else Raise OverflowError.

(** [datetime.now() - delta] *)
Definition now_minus (now_us : Z) (delta : Z) : outcome datetime :=
  if (0 <=? now_us - delta) && (now_us - delta <=? datetime_max)
  then Ret (Datetime (now_us - delta) None) else Raise OverflowError.

Definition obind {A B} (o : outcome A) (k : A -> outcome B) : outcome B :=
  match o with
  | Ret a => k a
  | Raise e => Raise e
  | SysExit msg => SysExit msg
  | OutOfFuel => OutOfFuel
  | Unmodelled => Unmodelled
  end.

Definition not_a_valid_date (since : string) : string :=
  "'" +:+ since +:+ "' is not a valid date".

(** ** The list variant, [src/ghi_scraper.py] *)

Module ListVariant.

Definition PAGE_SIZE : Z := 100.

Definition is_pull_request (dct : json) : outcome bool :=
  contains "pull_request" dct.

Section Program.

(** [datetime.fromisoformat], [None] standing for its [ValueError]. *)
Variable fromisoformat : string -> option datetime.
Variable remote : nat -> option json.
Variable env : environ.

Definition request (info : ScrapInfo) (page : Z) : rest_request :=
  RestRequest
    ("https://api.github.com/repos/" +:+ project info +:+ "/issues")
    [("Accept", "application/vnd.github+json");
     ("Authorization", "Bearer " +:+ GITHUB_TOKEN env)]
    ([("state", PStr "all"); ("per_page", PInt PAGE_SIZE); ("page", PInt page)]
       ++ match since info with
          | Some d => [("since", PIso d)]
          | None => []
          end).

(** The body of [for dct in lst]. *)
Definition write_item (info : ScrapInfo) (dct : json) : M unit :=
  do pr <- lift (is_pull_request dct);
  let sub_dir := if pr : bool then "pulls" else "issues" in
  let item_dir := child (out_dir info) sub_dir in
  run mkdir_exist_ok item_dir;
  do item_id <- subscript dct "number";
  match item_file_name item_id with
  | None => lift Unmodelled
  | Some name =>
      let item_path := child item_dir name in
      let text := Dumps.dumps dct in
      do title <- subscript dct "title";
      run log INFO "%s #%d: %s" [AStr sub_dir; AJson item_id; AJson title];
      write_text item_path text
  end.

Definition scrap_page (info : ScrapInfo) (page : Z) : M bool :=
  run log INFO "Scraping page %d" [AInt page];
  do lst <- round_trip remote (EvGet (request info page));
  match lst with
  | JArr lst =>
      match lst with
      | [] => run log INFO "Done" []; ret false
      | _ =>
          run log INFO "Found %d item(s)" [AInt (Z.of_nat (length lst))];
          run for_each lst (write_item info);
          ret (Z.of_nat (length lst) =? PAGE_SIZE)
      end
  | _ => raise AssertionError
  end.

(** [for page in count(page): if not scrap_page(info, page): return] *)
Fixpoint scrap_from (fuel : nat) (info : ScrapInfo) (page : Z) : M unit :=
  match fuel with
  | O => out_of_fuel
  | S fuel' =>
      do more <- scrap_page info page;
      if more : bool then scrap_from fuel' info (page + 1) else ret tt
  end.

Definition scrap (fuel : nat) (info : ScrapInfo) : M unit :=
  run match since info with
      | Some d => log INFO "Starting, scraping all issues for %s since %s"
                    [AStr (project info); ATime d]
      | None => log INFO "Starting, scraping issues for %s" [AStr (project info)]
      end;
  scrap_from fuel info 1.

(** [logging.basicConfig] only configures the process. *)
Definition setup_logger : M unit := ret tt.

Definition parse_since (since : string) : outcome datetime :=
  match fromisoformat since with
  | Some d => Ret d
  | None =>
      match fullmatch_value_unit "wdHM" since with
      | None => SysExit (not_a_valid_date since)
      | Some (digits, unit) =>
          obind (py_int digits) (fun value =>
          obind (if Ascii.eqb unit "w" then timedelta (value * us_per_week)
                 else if Ascii.eqb unit "d" then timedelta (value * us_per_day)
                 else if Ascii.eqb unit "H" then timedelta (value * us_per_hour)
                 else if Ascii.eqb unit "M" then timedelta (value * us_per_minute)
                 else Raise NotImplementedError) (fun delta =>
          now_minus (now env) delta))
      end
  end.

(** [main] after [parser.parse_args()] has returned. *)
Definition main (fuel : nat) (args : arguments) : M Z :=
  if String.eqb (GITHUB_TOKEN env) "" then
    sys_exit "You must define the $GITHUB_TOKEN environment variable"
  else
    do d <- is_dir (arg_out_dir args);
    if negb d then sys_exit (path_str (arg_out_dir args) +:+ " is not a directory")
    else
      run setup_logger;
      do since <- match arg_since args with
                  | Some s => if String.eqb s "" then ret None
                              else do d <- lift (parse_since s); ret (Some d)
                  | None => ret None
                  end;
      run scrap fuel (MkScrapInfo (arg_project args) (arg_out_dir args) since);
      ret 0.

End Program.

End ListVariant.

(** ** The graph variant, [src/ghi_scraper/__main__.py] *)

Module GraphVariant.

Definition FORMAT_KEY : string := "_format".
Definition FORMAT : Z := 2.

(** The client, as far as the program sees it: the header it sends. *)
Record Client : Type := MkClient { authorization : string }.

(** [s.split("/")] *)
Fixpoint split_slash (s : string) : list string :=
  match s with
  | EmptyString => [EmptyString]
  | String c s' =>
      if Ascii.eqb c "/" then EmptyString :: split_slash s'
      else match split_slash s' with
           | part :: parts => String c part :: parts
           | [] => [String c EmptyString]
           end
  end.

(** [owner, name = parts] *)
Definition unpack2 (parts : list string) : outcome (string * string) :=
  match parts with
  | [owner; name] => Ret (owner, name)
  | _ => Raise ValueError
  end.

Fixpoint chars (s : string) : list json :=
  match s with
  | EmptyString => []
  | String c s' => JStr (String c EmptyString) :: chars s'
  end.

(** What [for x in v] runs through. *)
Definition iterate (v : json) : outcome (list json) :=
  match v with
  | JArr l => Ret l
  | JObj d => Ret (map JStr (Dict.keys d))
  | JStr s => Ret (chars s)
  | _ => Raise TypeError
  end.

(** [dct[k] = v] *)
Definition store (dct : json) (k : string) (v : json) : outcome json :=
  match dct with
  | JObj d => Ret (JObj (Dict.set k v d))
  | _ => Raise TypeError
  end.

Section Program.

Variable fromisoformat : string -> option datetime.
Variable remote : nat -> option json.
Variable env : environ.

(** The body of [for edge in edges]. *)
Definition write_edge (info : ScrapInfo) (edge : json) : M unit :=
  do node <- subscript edge "node";
  do dct <- lift (store node FORMAT_KEY (JInt FORMAT));
  let sub_dir := "issues" in
  let item_dir := child (out_dir info) sub_dir in
  run mkdir_exist_ok item_dir;
  do item_id <- subscript dct "number";
  match item_file_name item_id with
  | None => lift Unmodelled
  | Some name =>
      let item_path := child item_dir name in
      let text := Dumps.dumps dct in
      do title <- subscript dct "title";
      run log INFO "%s #%d: %s" [AStr sub_dir; AJson item_id; AJson title];
      write_text item_path text
  end.

(** The next cursor, [JNull] for Python's [None].  The query document
    is a constant of the program and is left out. *)
Definition scrap_page (client : Client) (info : ScrapInfo) (cursor : json) : M json :=
  run log INFO "Scraping page %s" [AJson cursor];
  do on <- lift (unpack2 (split_slash (project info)));
  let params := GqlVariables (fst on) (snd on) (since info) cursor in
  do result <- round_trip remote (EvExecute params);
  do repository <- subscript result "repository";
  do issues <- subscript repository "issues";
  do edges <- subscript issues "edges";
  do repository' <- subscript result "repository";
  do issues' <- subscript repository' "issues";
  do page_info <- subscript issues' "pageInfo";
  do items <- lift (iterate edges);
  run for_each items (write_edge info);
  do has_next <- subscript page_info "hasNextPage";
  if truthy has_next then subscript page_info "endCursor"
  else ret JNull.

(** [while True: cursor = scrap_page(...); if cursor is None: return] *)
Fixpoint scrap_from (fuel : nat) (client : Client) (info : ScrapInfo) (cursor : json)
  : M unit :=
  match fuel with
  | O => out_of_fuel
  | S fuel' =>
      do cursor' <- scrap_page client info cursor;
      match cursor' with
      | JNull => ret tt
      | _ => scrap_from fuel' client info cursor'
      end
  end.

Definition scrap (fuel : nat) (client : Client) (info : ScrapInfo) : M unit :=
  run match since info with
      | Some d => log INFO "Starting, scraping all issues for %s since %s"
                    [AStr (project info); ATime d]
      | None => log INFO "Starting, scraping issues for %s" [AStr (project info)]
      end;
  scrap_from fuel client info JNull.

Definition setup_logger : M unit := ret tt.

Definition parse_since (since : string) : outcome datetime :=
  match fromisoformat since with
  | Some d => Ret d
  | None =>
      match fullmatch_value_unit "wdh" since with
      | None => SysExit (not_a_valid_date since)
      | Some (digits, unit) =>
          obind (py_int digits) (fun value =>
          obind (if Ascii.eqb unit "w" then timedelta (value * us_per_week)
                 else if Ascii.eqb unit "d" then timedelta (value * us_per_day)
                 else if Ascii.eqb unit "h" then timedelta (value * us_per_hour)
                 else Raise NotImplementedError) (fun delta =>
          now_minus (now env) delta))
      end
  end.

(** Reads the schema file, then builds the transport and the client;
    nothing is sent yet. *)
Definition create_client (github_token : string) : M Client :=
  match schema env with
  | None => raise FileNotFoundError
  | Some _ =>
      run emit (EvClient ("Bearer " +:+ github_token));
      ret (MkClient ("Bearer " +:+ github_token))
  end.

Definition main (fuel : nat) (args : arguments) : M Z :=
  do d <- is_dir (arg_out_dir args);
  if negb d then sys_exit (path_str (arg_out_dir args) +:+ " is not a directory")
  else
    run setup_logger;
    let github_token := GITHUB_TOKEN env in
    if String.eqb github_token "" then
      run log ERROR "$GITHUB_TOKEN environment variable not set" [];
      ret 1
    else
      do client <- create_client github_token;
      do since <- match arg_since args with
                  | Some s => if String.eqb s "" then ret None
                              else do d <- lift (parse_since s); ret (Some d)
                  | None => ret None
                  end;
      run scrap fuel client (MkScrapInfo (arg_project args) (arg_out_dir args) since);
      ret 0.

End Program.

End GraphVariant.

(** ** The exit status of the process, from [sys.exit(main())] *)

Definition exit_status (o : outcome Z) : option Z :=
  match o with
  | Ret code => Some code
  | Raise _ => Some 1
  | SysExit _ => Some 1
  | OutOfFuel => None
  | Unmodelled => None
  end.

(** What went to the user: the message of [sys.exit], or the records
    logged at level ERROR. *)
Definition error_logs (t : list event) : list string :=
  omap (fun e => match e with EvLog ERROR fmt _ => Some fmt | _ => None end) t.

Definition requests (t : list event) : list event :=
  omap (fun e => match e with EvGet _ | EvExecute _ => Some e | _ => None end) t.

Definition writes (t : list event) : list (path * string) :=
  omap (fun e => match e with EvWrite p text => Some (p, text) | _ => None end) t.

Definition clients (t : list event) : list event :=
  omap (fun e => match e with EvClient _ => Some e | _ => None end) t.

Definition fresh_world (f : filesystem) : world := World f [] O.

(** ** The time-spec grammar as the specification words it

    The specification gives one pattern for both programs,
    [^(\d+)([wdhHM])$], and the duration each letter stands for. *)

Definition spec_unit_class : string := "wdhHM".

Definition spec_unit_duration (unit : ascii) : Z :=
  if Ascii.eqb unit "w" then us_per_week
  else if Ascii.eqb unit "d" then us_per_day
  else if Ascii.eqb unit "h" || Ascii.eqb unit "H" then us_per_hour
  else if Ascii.eqb unit "M" then us_per_minute
  else 0.

(** ** Sample inputs *)

Module Sample.

Definition out : path := ["out"].

(** An output directory that exists and is empty. *)
Definition disk : filesystem := Filesystem {[ out ]} ∅.

(** A reading of the clock in the year 2001. *)
Definition clock : Z := 2000 * 365 * us_per_day.

Definition env : environ := Environ "secret" clock (Some "schema").
Definition env_no_token : environ := Environ "" clock (Some "schema").

Definition instant : datetime := Datetime (1999 * 365 * us_per_day) None.

(** A parser of absolute dates that knows one date. *)
Definition fromisoformat (s : string) : option datetime :=
  if String.eqb s "1999-09-01" then Some instant else None.

Definition args : arguments := Arguments None "octo/demo" out.

Definition item (number : Z) : json :=
  JObj [("number", JInt number); ("title", JStr "Fix bug")].

Definition pull : json :=
  JObj [("number", JInt 7); ("title", JStr "Fix bug"); ("pull_request", JObj [])].

(** A remote project without issues. *)
Definition empty_remote (k : nat) : option json := Some (JArr []).

(** A remote project with one pull request. *)
Definition one_pull_remote (k : nat) : option json :=
  match k with O => Some (JArr [pull]) | _ => Some (JArr []) end.

(** A remote project whose first page holds [n] issues and whose
    second page is empty. *)
Definition first_page_remote (n : nat) (k : nat) : option json :=
  match k with
  | O => Some (JArr (map (fun i => item (Z.of_nat i)) (seq 1 n)))
  | _ => Some (JArr [])
  end.

Definition info : ScrapInfo := MkScrapInfo "octo/demo" out None.

(** A GraphQL reply holding the given nodes and page information. *)
Definition graph_reply (nodes : list json) (has_next end_cursor : json) : json :=
  JObj [("repository",
         JObj [("issues",
                JObj [("pageInfo",
                       JObj [("endCursor", end_cursor); ("hasNextPage", has_next)]);
                      ("edges",
                       JArr (map (fun node => JObj [("node", node)]) nodes))])])].

(** A remote that always says there is more, without a cursor. *)
Definition more_without_cursor (k : nat) : option json :=
  Some (graph_reply [item 7] (JBool true) JNull).

(** A remote with two pages of one issue each. *)
Definition two_pages (k : nat) : option json :=
  match k with
  | O => Some (graph_reply [item 1] (JBool true) (JStr "Y3Vyc29yOjE="))
  | _ => Some (graph_reply [item 2] (JBool false) (JStr "Y3Vyc29yOjI="))
  end.

Definition client : GraphVariant.Client := GraphVariant.MkClient "Bearer secret".

Definition args_no_slash : arguments := Arguments None "octodemo" out.

End Sample.

(** ** Auxiliary notions for the statements *)

(** The [since] that [main] hands to [scrap]: an absent or empty
    [--since] gives none, any other goes through [parse_since]. *)
Definition resolve_since (parse : string -> outcome datetime) (a : option string)
  : outcome (option datetime) :=
  match a with
  | Some s => if String.eqb s "" then Ret None
              else obind (parse s) (fun d => Ret (Some d))
  | None => Ret None
  end.

Fixpoint count_slash (s : string) : nat :=
  match s with
  | EmptyString => O
  | String c s' => if Ascii.eqb c "/" then S (count_slash s') else count_slash s'
  end.

(** The second world continues the first: same past, more events. *)
Definition continues (w w' : world) : Prop :=
  exists t, trace w' = trace w ++ t.

(** ** Properties that follow the structure of a program

    A predicate on programs that holds of the basic steps and goes through
    sequencing holds of the whole scraper as soon as it holds of the
    directory creations and file writes the scraper performs. *)

Record program_logic (P : forall A : Type, M A -> Prop) : Prop := ProgramLogic {
  logic_lift : forall A (o : outcome A), P A (lift o);
  logic_bind : forall A B (m : M A) (k : A -> M B),
      P A m -> (forall a, P B (k a)) -> P B (bind m k);
  logic_log : forall level fmt args, P unit (log level fmt args)
}.

(** Programs whose every run relates the world before to the world after. *)
Definition preserves (R : world -> world -> Prop) (A : Type) (m : M A) : Prop :=
  forall w, R w (snd (m w)).

(** A stretch of a run that talks to nobody: the trace grows by events
    that are neither requests nor client constructions. *)
Definition quiet (w w' : world) : Prop :=
  sent w' = sent w /\
  exists t, trace w' = trace w ++ t /\ requests t = [] /\ clients t = [].

(** What [scrap_page] of the list variant does with the reply. *)
Definition list_after_reply (info : ScrapInfo) (lst : json) : M bool :=
  match lst with
  | JArr lst =>
      match lst with
      | [] => run log INFO "Done" []; ret false
      | _ =>
          run log INFO "Found %d item(s)" [AInt (Z.of_nat (length lst))];
          run for_each lst (ListVariant.write_item info);
          ret (Z.of_nat (length lst) =? ListVariant.PAGE_SIZE)
      end
  | _ => raise AssertionError
  end.

(** What [scrap_page] of the graph variant does with the reply. *)
Definition graph_after_reply (info : ScrapInfo) (result : json) : M json :=
  do repository <- subscript result "repository";
  do issues <- subscript repository "issues";
  do edges <- subscript issues "edges";
  do repository' <- subscript result "repository";
  do issues' <- subscript repository' "issues";
  do page_info <- subscript issues' "pageInfo";
  do items <- lift (GraphVariant.iterate edges);
  run for_each items (GraphVariant.write_edge info);
  do has_next <- subscript page_info "hasNextPage";
  if truthy has_next then subscript page_info "endCursor"
  else ret JNull.

(** The world once a page has been asked for. *)
Definition asked (w : world) (log_record request : event) : world :=
  World (fs w) ((trace w ++ [log_record]) ++ [request]) (S (sent w)).

Definition logged (w : world) (level : loglevel) (fmt : string) (args : list logarg)
  : world :=
  World (fs w) (trace w ++ [EvLog level fmt args]) (sent w).

(** What the flag and the cursor of a page make [scrap_page] return. *)
Definition next_cursor (page_info : list (string * json)) : outcome json :=
  match Dict.get "hasNextPage" page_info with
  | None => Raise (KeyError "hasNextPage")
  | Some has_next =>
      if truthy has_next then
        match Dict.get "endCursor" page_info with
        | Some c => Ret c
        | None => Raise (KeyError "endCursor")
        end
      else Ret JNull
  end.

(** Entries in the order of their keys. *)
Definition key_le (a b : string * string) : Prop := String.leb (fst a) (fst b) = true.

(** One line of a rendered object. *)
Definition render_entry (e : string * string) : string :=
  Dumps.encode_str (fst e) +:+ ": " +:+ snd e.

(** Where the list variant puts an item. *)
Definition list_sub_dir (d : list (string * json)) : string :=
  if Dict.mem "pull_request" d then "pulls" else "issues".



(** ** Running the scraper again

    Under an output directory [out] the scraper creates directories one
    level down and writes files two levels down, and touches nothing
    else. *)
Definition grows (out : path) (f f' : filesystem) : Prop :=
  dirs f ⊆ dirs f' /\
  (forall q, length q <> S (length out) -> q ∈ dirs f' -> q ∈ dirs f) /\
  (forall q, length q <> S (S (length out)) -> files f' !! q = files f !! q).

(** A second run [wb] walking in the steps of a first run [wa] that ends
    with the file system [f1], from which the second run started: it has
    sent as many requests, it has the directories of [f1], and each of its
    files is as in [f1] or as the first run has it by now. *)
Definition in_step (f1 : filesystem) (wa wb : world) : Prop :=
  sent wb = sent wa /\
  dirs (fs wb) = dirs f1 /\
  forall p, files (fs wb) !! p = files f1 !! p \/
            files (fs wb) !! p = files (fs wa) !! p.

(** The file system [f] at the end of a step of the first run is on the
    way to [f1]: it is [f1] itself when the step ended the run. *)
Definition settles (out : path) {A} (o : outcome A) (f f1 : filesystem) : Prop :=
  match o with
  | Ret _ => grows out f f1
  | _ => f = f1
  end.

(** A program that a second run repeats with the same outcome. *)
Definition replays (out : path) (A : Type) (m : M A) : Prop :=
  (forall w, grows out (fs w) (fs (snd (m w)))) /\
  (forall f1 wa wb,
      settles out (fst (m wa)) (fs (snd (m wa))) f1 ->
      in_step f1 wa wb ->
      fst (m wb) = fst (m wa) /\ in_step f1 (snd (m wa)) (snd (m wb))).

(** ** Auxiliary notions for the further properties *)


(** The record the graph variant writes for a node. *)
Definition stamp (d : list (string * json)) : list (string * json) :=
  Dict.set GraphVariant.FORMAT_KEY (JInt GraphVariant.FORMAT) d.





(** * Properties *)

(** ** The relative pattern *)

Lemma split_last_app (s : string) (front : string) (last : ascii) :
  split_last s = Some (front, last) <-> s = front +:+ String last EmptyString.
Proof.
  revert front last. induction s as [|c s IH]; intros front last.
  - simpl. split; [discriminate|]. destruct front; discriminate.
  - destruct s as [|c' s'].
    + simpl. split.
      * intros [= <- <-]. reflexivity.
      * destruct front as [|a front]; simpl.
        -- intros [= ->]. reflexivity.
        -- intros [= _ H]. destruct front; discriminate.
    + change (split_last (String c (String c' s')))
        with (match split_last (String c' s') with
              | Some (f, l) => Some (String c f, l)
              | None => None
              end).
      destruct (split_last (String c' s')) as [[f l]|] eqn:E.
      * pose proof (proj1 (IH f l) eq_refl) as E'. split.
        -- intros [= <- <-]. rewrite E'. reflexivity.
        -- destruct front as [|a front].
           ++ intros [= _ H]; discriminate.
           ++ intros H. change (String a front +:+ String last "")
                with (String a (front +:+ String last "")) in H.
              injection H as <- H. apply IH in H. congruence.
      * split; [discriminate|].
        destruct front as [|a front].
        -- intros [= _ H]; discriminate.
        -- intros H. change (String a front +:+ String last "")
             with (String a (front +:+ String last "")) in H.
           injection H as _ H. apply IH in H. discriminate.
Qed.

(** [fullmatch_value_unit] is the full match of [(\d+)([class])]: the
    string is a non-empty run of digits followed by one letter of the
    class, and the groups are these two parts. *)
Lemma fullmatch_value_unit_spec (class since digits : string) (unit : ascii) :
  fullmatch_value_unit class since = Some (digits, unit) <->
  since = digits +:+ String unit EmptyString /\ digits <> EmptyString /\
  all_digits digits = true /\ in_class unit class = true.
Proof.
  unfold fullmatch_value_unit. split.
  - destruct (split_last since) as [[f l]|] eqn:E; [|discriminate].
    destruct (negb (String.eqb f "")) eqn:E1; simpl; [|discriminate].
    destruct (all_digits f) eqn:E2; simpl; [|discriminate].
    destruct (in_class l class) eqn:E3; [|discriminate].
    intros [= <- <-]. apply split_last_app in E.
    repeat split; try assumption.
    intros ->. discriminate.
  - intros (-> & Hne & Hd & Hc).
    assert (E : split_last (digits +:+ String unit "") = Some (digits, unit))
      by (apply split_last_app; reflexivity).
    rewrite E, Hd, Hc.
    destruct (String.eqb_spec digits ""); [contradiction|reflexivity].
Qed.

Lemma in_class_wdHM (c : ascii) :
  in_class c "wdHM" = true ->
  c = "w"%char \/ c = "d"%char \/ c = "H"%char \/ c = "M"%char.
Proof.
  simpl. intros H.
  repeat (apply orb_prop in H; destruct H as [H|H];
          [apply Ascii.eqb_eq in H; auto|]).
  discriminate.
Qed.

Lemma in_class_wdh (c : ascii) :
  in_class c "wdh" = true -> c = "w"%char \/ c = "d"%char \/ c = "h"%char.
Proof.
  simpl. intros H.
  repeat (apply orb_prop in H; destruct H as [H|H];
          [apply Ascii.eqb_eq in H; auto|]).
  discriminate.
Qed.

Lemma obind_raise {A B} (o : outcome A) (k : A -> outcome B) (e : exn) :
  obind o k = Raise e -> o = Raise e \/ exists a, o = Ret a /\ k a = Raise e.
Proof.
  destruct o; simpl; intros H; try discriminate.
  - right. eauto.
  - left. congruence.
Qed.

Lemma py_int_raise (text : string) (e : exn) : py_int text = Raise e -> e = ValueError.
Proof. unfold py_int. case_match; congruence. Qed.

Lemma timedelta_raise (us : Z) (e : exn) : timedelta us = Raise e -> e = OverflowError.
Proof. unfold timedelta. case_match; congruence. Qed.

Lemma now_minus_raise (n delta : Z) (e : exn) :
  now_minus n delta = Raise e -> e = OverflowError.
Proof. unfold now_minus. case_match; congruence. Qed.

(** C9: in both variants [parse_since] never raises
    [NotImplementedError]: a unit letter that the pattern lets through
    is always taken by one of the cases before the [else]. *)
Theorem parse_since_never_not_implemented
    (fromisoformat : string -> option datetime) (env : environ) (since : string) :
  ListVariant.parse_since fromisoformat env since <> Raise NotImplementedError /\
  GraphVariant.parse_since fromisoformat env since <> Raise NotImplementedError.
Proof.
  split.
  - unfold ListVariant.parse_since.
    destruct (fromisoformat since); [discriminate|].
    destruct (fullmatch_value_unit "wdHM" since) as [[digits unit]|] eqn:E;
      [|discriminate].
    apply fullmatch_value_unit_spec in E as (_ & _ & _ & Hc).
    intros H. apply obind_raise in H as [H|(value & _ & H)].
    { apply py_int_raise in H. discriminate. }
    apply obind_raise in H as [H|(delta & _ & H)].
    + apply in_class_wdHM in Hc as [ -> | [ -> | [ -> | -> ] ] ]; simpl in H;
        apply timedelta_raise in H; discriminate.
    + apply now_minus_raise in H. discriminate.
  - unfold GraphVariant.parse_since.
    destruct (fromisoformat since); [discriminate|].
    destruct (fullmatch_value_unit "wdh" since) as [[digits unit]|] eqn:E;
      [|discriminate].
    apply fullmatch_value_unit_spec in E as (_ & _ & _ & Hc).
    intros H. apply obind_raise in H as [H|(value & _ & H)].
    { apply py_int_raise in H. discriminate. }
    apply obind_raise in H as [H|(delta & _ & H)].
    + apply in_class_wdh in Hc as [ -> | [ -> | -> ] ]; simpl in H;
        apply timedelta_raise in H; discriminate.
    + apply now_minus_raise in H. discriminate.
Qed.

(** ** The time-spec parser *)

(** C3, as stated, fails: the list variant does not know the letter [h]
    of the specification's pattern and leaves with an error on ["3h"]
    (the graph variant accepts it); neither program has the union of
    the letters. *)
Lemma parse_since_spec_pattern_counterexample :
  Sample.fromisoformat "3h" = None /\
  fullmatch_value_unit spec_unit_class "3h" = Some ("3", "h"%char) /\
  ListVariant.parse_since Sample.fromisoformat Sample.env "3h"
    = SysExit "'3h' is not a valid date" /\
  ListVariant.parse_since Sample.fromisoformat Sample.env "3h"
    <> Ret (Datetime (now Sample.env - 3 * spec_unit_duration "h") None).
Proof. repeat split; try reflexivity. discriminate. Qed.

Lemma decimal_value_nonneg (s : string) (acc : Z) :
  0 <= acc -> all_digits s = true -> 0 <= decimal_value acc s.
Proof.
  revert acc. induction s as [|c s IH]; intros acc Hacc Hd; simpl in *.
  - exact Hacc.
  - apply andb_prop in Hd as [Hc Hs]. apply IH; [|exact Hs].
    unfold is_digit in Hc. apply andb_prop in Hc as [H1 _].
    apply N.leb_le in H1. unfold digit_value. lia.
Qed.

Lemma relative_instant (n value duration : Z) :
  0 <= n <= datetime_max -> 0 <= value -> 0 < duration ->
  value * duration <= n ->
  obind (timedelta (value * duration)) (now_minus n)
  = Ret (Datetime (n - value * duration) None).
Proof.
  intros Hn Hv Hd Hle. unfold timedelta.
  assert (H0 : 0 <= value * duration) by nia.
  assert (Hday : 0 < us_per_day) by (vm_compute; reflexivity).
  assert (Hq : 0 <= value * duration / us_per_day) by (apply Z.div_pos; lia).
  assert (Hq' : value * duration / us_per_day <= 999999999).
  { apply Z.div_le_upper_bound; [lia|].
    assert (datetime_max <= us_per_day * 999999999) by (vm_compute; discriminate).
    lia. }
  replace (-999999999 <=? value * duration / us_per_day) with true
    by (symmetry; apply Z.leb_le; lia).
  replace (value * duration / us_per_day <=? 999999999) with true
    by (symmetry; apply Z.leb_le; lia).
  simpl. unfold now_minus.
  replace (0 <=? n - value * duration) with true by (symmetry; apply Z.leb_le; lia).
  replace (n - value * duration <=? datetime_max) with true
    by (symmetry; apply Z.leb_le; lia).
  reflexivity.
Qed.

(** C3, amended: an absolute date that [fromisoformat] accepts is
    returned as it is; otherwise the list variant matches
    [(\d+)([wdHM])] and the graph variant [(\d+)([wdh])], and on a match
    whose number has at most 4300 digits and does not reach back before
    the first instant of the calendar the result is the clock reading
    minus the number times the unit. *)
Theorem parse_since_success
    (fromisoformat : string -> option datetime) (env : environ) (since : string) :
  0 <= now env <= datetime_max ->
  (forall d, fromisoformat since = Some d ->
     ListVariant.parse_since fromisoformat env since = Ret d /\
     GraphVariant.parse_since fromisoformat env since = Ret d) /\
  (forall digits unit,
     fromisoformat since = None ->
     (String.length digits <= int_max_str_digits)%nat ->
     decimal_value 0 digits * spec_unit_duration unit <= now env ->
     (fullmatch_value_unit "wdHM" since = Some (digits, unit) ->
      ListVariant.parse_since fromisoformat env since
        = Ret (Datetime (now env - decimal_value 0 digits * spec_unit_duration unit) None)) /\
     (fullmatch_value_unit "wdh" since = Some (digits, unit) ->
      GraphVariant.parse_since fromisoformat env since
        = Ret (Datetime (now env - decimal_value 0 digits * spec_unit_duration unit) None))).
Proof.
  intros Hnow. split.
  - intros d Hd. unfold ListVariant.parse_since, GraphVariant.parse_since.
    rewrite Hd. split; reflexivity.
  - intros digits unit Hiso Hlen Hle.
    assert (Hint : py_int digits = Ret (decimal_value 0 digits)).
    { unfold py_int. apply Nat.leb_le in Hlen. rewrite Hlen. reflexivity. }
    split; intros Hm.
    + unfold ListVariant.parse_since. rewrite Hiso, Hm, Hint. simpl.
      apply fullmatch_value_unit_spec in Hm as (_ & _ & Hd & Hc).
      pose proof (decimal_value_nonneg digits 0 ltac:(lia) Hd) as Hv.
      apply in_class_wdHM in Hc as [ -> | [ -> | [ -> | -> ] ] ];
        change (spec_unit_duration _) with us_per_week in * ||
        change (spec_unit_duration _) with us_per_day in * ||
        change (spec_unit_duration _) with us_per_hour in * ||
        change (spec_unit_duration _) with us_per_minute in *;
        simpl Ascii.eqb; cbv iota;
        apply relative_instant; try assumption; vm_compute; intuition discriminate.
    + unfold GraphVariant.parse_since. rewrite Hiso, Hm, Hint. simpl.
      apply fullmatch_value_unit_spec in Hm as (_ & _ & Hd & Hc).
      pose proof (decimal_value_nonneg digits 0 ltac:(lia) Hd) as Hv.
      apply in_class_wdh in Hc as [ -> | [ -> | -> ] ];
        change (spec_unit_duration _) with us_per_week in * ||
        change (spec_unit_duration _) with us_per_day in * ||
        change (spec_unit_duration _) with us_per_hour in *;
        simpl Ascii.eqb; cbv iota;
        apply relative_instant; try assumption; vm_compute; intuition discriminate.
Qed.

Lemma parse_since_success_witness :
  ListVariant.parse_since Sample.fromisoformat Sample.env "1999-09-01" = Ret Sample.instant /\
  ListVariant.parse_since Sample.fromisoformat Sample.env "90M"
    = Ret (Datetime (Sample.clock - 90 * us_per_minute) None) /\
  GraphVariant.parse_since Sample.fromisoformat Sample.env "3h"
    = Ret (Datetime (Sample.clock - 3 * us_per_hour) None).
Proof.
  assert (Hnow : 0 <= now Sample.env <= datetime_max)
    by (split; vm_compute; discriminate).
  split; [|split].
  - apply (proj1 (parse_since_success Sample.fromisoformat Sample.env "1999-09-01" Hnow)
             Sample.instant eq_refl).
  - apply (proj1 (proj2 (parse_since_success Sample.fromisoformat Sample.env "90M" Hnow)
             "90" "M"%char eq_refl ltac:(apply Nat.leb_le; reflexivity)
             ltac:(vm_compute; discriminate)) eq_refl).
  - apply (proj2 (proj2 (parse_since_success Sample.fromisoformat Sample.env "3h" Hnow)
             "3" "h"%char eq_refl ltac:(apply Nat.leb_le; reflexivity)
             ltac:(vm_compute; discriminate)) eq_refl).
Defined.

(** ** Start-up *)

Lemma is_dir_true (p : path) (w : world) :
  p ∈ dirs (fs w) -> is_dir p w = (Ret true, w).
Proof. intros H. unfold is_dir. rewrite bool_decide_eq_true_2 by exact H. reflexivity. Qed.

Lemma is_dir_false (p : path) (w : world) :
  p ∉ dirs (fs w) -> is_dir p w = (Ret false, w).
Proof. intros H. unfold is_dir. rewrite bool_decide_eq_false_2 by exact H. reflexivity. Qed.

Lemma eqb_empty_false (s : string) : s <> "" -> String.eqb s "" = false.
Proof. intros H. destruct (String.eqb_spec s ""); [contradiction|reflexivity]. Qed.

Definition token_error_record : event :=
  EvLog ERROR "$GITHUB_TOKEN environment variable not set" [].

(** C4, as stated, fails: the graph variant tests the token before it
    calls [create_client]; with an empty token the run ends on the
    logged error and no client has been built. *)
Lemma graph_token_check_counterexample :
  GITHUB_TOKEN Sample.env_no_token = "" /\
  GraphVariant.main Sample.fromisoformat Sample.empty_remote Sample.env_no_token
    1 Sample.args (fresh_world Sample.disk)
  = (Ret 1, World Sample.disk [token_error_record] 0) /\
  clients [token_error_record] = [].
Proof. repeat split; vm_compute; reflexivity. Qed.

(** C4, amended: in both variants a missing token ends the run with a
    message and a non-zero status before any request is sent, and in both
    the test comes before any client is built: the list variant leaves
    through [sys.exit] at once, the graph variant logs an error and
    returns 1 once the output directory has been checked. *)
Theorem missing_token_is_fatal
    (fromisoformat : string -> option datetime) (remote : nat -> option json)
    (env : environ) (fuel : nat) (args : arguments) (w : world) :
  GITHUB_TOKEN env = "" ->
  ListVariant.main fromisoformat remote env fuel args w
    = (SysExit "You must define the $GITHUB_TOKEN environment variable", w) /\
  exists o w',
    GraphVariant.main fromisoformat remote env fuel args w = (o, w') /\
    (o = Ret 1 /\ trace w' = trace w ++ [token_error_record] \/
     o = SysExit (path_str (arg_out_dir args) +:+ " is not a directory") /\ w' = w) /\
    exit_status o = Some 1 /\
    requests (trace w') = requests (trace w) /\
    clients (trace w') = clients (trace w) /\
    fs w' = fs w /\ sent w' = sent w.
Proof.
  intros Htok. split.
  - unfold ListVariant.main. rewrite Htok. reflexivity.
  - unfold GraphVariant.main, bind. rewrite Htok.
    destruct (decide (arg_out_dir args ∈ dirs (fs w))) as [Hd|Hd].
    + rewrite (is_dir_true _ _ Hd). simpl.
      eexists _, _. split; [reflexivity|]. simpl.
      unfold requests, clients. rewrite !omap_app. simpl. rewrite !app_nil_r.
      repeat split. left. split; reflexivity.
    + rewrite (is_dir_false _ _ Hd). simpl.
      eexists _, _. split; [reflexivity|].
      repeat split. right. split; reflexivity.
Qed.

Lemma missing_token_is_fatal_witness :
  ListVariant.main Sample.fromisoformat Sample.empty_remote Sample.env_no_token
    1 Sample.args (fresh_world Sample.disk)
  = (SysExit "You must define the $GITHUB_TOKEN environment variable",
     fresh_world Sample.disk).
Proof.
  apply (proj1 (missing_token_is_fatal Sample.fromisoformat Sample.empty_remote
                  Sample.env_no_token 1 Sample.args (fresh_world Sample.disk) eq_refl)).
Defined.

Lemma bind_ret_l {A B} (a : A) (k : A -> M B) (w : world) : bind (ret a) k w = k a w.
Proof. reflexivity. Qed.

Lemma lift_bind {A B} (o : outcome A) (k : A -> M B) (w : world) :
  bind (lift o) k w
  = match o with
    | Ret a => k a w
    | Raise e => (Raise e, w)
    | SysExit msg => (SysExit msg, w)
    | OutOfFuel => (OutOfFuel, w)
    | Unmodelled => (Unmodelled, w)
    end.
Proof. unfold bind, lift. destruct o; reflexivity. Qed.

(** The [if args.since:] block of [main] is [resolve_since]. *)
Lemma since_block {B} (parse : string -> outcome datetime) (a : option string)
    (k : option datetime -> M B) (w : world) :
  bind (match a with
        | Some s => if String.eqb s "" then ret None
                    else bind (lift (parse s)) (fun d => ret (Some d))
        | None => ret None
        end) k w
  = bind (lift (resolve_since parse a)) k w.
Proof.
  unfold resolve_since. destruct a as [s|]; [|reflexivity].
  destruct (String.eqb s ""); [reflexivity|].
  unfold bind, lift, ret. destruct (parse s); reflexivity.
Qed.

Lemma list_main_started
    (fromisoformat : string -> option datetime) (remote : nat -> option json)
    (env : environ) (fuel : nat) (args : arguments) (w : world) :
  GITHUB_TOKEN env <> "" -> arg_out_dir args ∈ dirs (fs w) ->
  ListVariant.main fromisoformat remote env fuel args w
  = bind (lift (resolve_since (ListVariant.parse_since fromisoformat env) (arg_since args)))
      (fun since =>
         bind (ListVariant.scrap remote env fuel
                 (MkScrapInfo (arg_project args) (arg_out_dir args) since))
           (fun _ => ret 0)) w.
Proof.
  intros Htok Hdir. unfold ListVariant.main.
  rewrite (eqb_empty_false _ Htok).
  unfold bind at 1. rewrite (is_dir_true _ _ Hdir). cbn [negb].
  unfold ListVariant.setup_logger. rewrite bind_ret_l.
  apply since_block.
Qed.

Lemma graph_main_started
    (fromisoformat : string -> option datetime) (remote : nat -> option json)
    (env : environ) (fuel : nat) (args : arguments) (w : world) (text : string) :
  GITHUB_TOKEN env <> "" -> arg_out_dir args ∈ dirs (fs w) -> schema env = Some text ->
  GraphVariant.main fromisoformat remote env fuel args w
  = bind (lift (resolve_since (GraphVariant.parse_since fromisoformat env) (arg_since args)))
      (fun since =>
         bind (GraphVariant.scrap remote fuel
                 (GraphVariant.MkClient ("Bearer " +:+ GITHUB_TOKEN env))
                 (MkScrapInfo (arg_project args) (arg_out_dir args) since))
           (fun _ => ret 0))
      (World (fs w) (trace w ++ [EvClient ("Bearer " +:+ GITHUB_TOKEN env)]) (sent w)).
Proof.
  intros Htok Hdir Hschema. unfold GraphVariant.main.
  unfold bind at 1. rewrite (is_dir_true _ _ Hdir). cbn [negb].
  unfold GraphVariant.setup_logger. rewrite bind_ret_l. cbv zeta.
  rewrite (eqb_empty_false _ Htok).
  unfold bind at 1. unfold GraphVariant.create_client. rewrite Hschema.
  cbn [bind emit ret]. apply since_block.
Qed.

(** C5, as stated, fails on the empty string: it is neither a date nor
    a relative offset, yet [main] treats it like an absent [--since] and
    scrapes. *)
Lemma empty_since_counterexample :
  Sample.fromisoformat "" = None /\
  fullmatch_value_unit spec_unit_class "" = None /\
  exists w',
    ListVariant.main Sample.fromisoformat Sample.empty_remote Sample.env 1
      (Arguments (Some "") "octo/demo" Sample.out) (fresh_world Sample.disk)
    = (Ret 0, w') /\
    length (requests (trace w')) = 1%nat.
Proof.
  split; [reflexivity|]. split; [reflexivity|].
  eexists. split; [vm_compute; reflexivity|]. reflexivity.
Qed.

(** C5, amended: for every non-empty [--since] string that is neither
    an absolute date nor a match of the variant's relative pattern, and
    once the token and the output directory have passed their checks (and,
    in the graph variant, the client is built), the run leaves through
    [sys.exit] with a message quoting the string: the status is 1, no
    request is sent and nothing is written. *)
Theorem invalid_since_aborts
    (fromisoformat : string -> option datetime) (remote : nat -> option json)
    (env : environ) (fuel : nat) (args : arguments) (w : world)
    (since text : string) :
  arg_since args = Some since -> since <> "" -> fromisoformat since = None ->
  GITHUB_TOKEN env <> "" -> arg_out_dir args ∈ dirs (fs w) -> schema env = Some text ->
  not_a_valid_date since = "'" +:+ since +:+ "' is not a valid date" /\
  exit_status (SysExit (not_a_valid_date since)) = Some 1 /\
  (fullmatch_value_unit "wdHM" since = None ->
   ListVariant.main fromisoformat remote env fuel args w
   = (SysExit (not_a_valid_date since), w)) /\
  (fullmatch_value_unit "wdh" since = None ->
   GraphVariant.main fromisoformat remote env fuel args w
   = (SysExit (not_a_valid_date since),
      World (fs w) (trace w ++ [EvClient ("Bearer " +:+ GITHUB_TOKEN env)]) (sent w))) /\
  requests (trace w ++ [EvClient ("Bearer " +:+ GITHUB_TOKEN env)]) = requests (trace w) /\
  writes (trace w ++ [EvClient ("Bearer " +:+ GITHUB_TOKEN env)]) = writes (trace w).
Proof.
  intros Hsince Hne Hiso Htok Hdir Hschema.
  split; [reflexivity|]. split; [reflexivity|].
  split; [|split; [|split]].
  - intros Hm. rewrite list_main_started by assumption.
    rewrite Hsince. unfold resolve_since. rewrite (eqb_empty_false _ Hne).
    unfold ListVariant.parse_since. rewrite Hiso, Hm. reflexivity.
  - intros Hm. rewrite (graph_main_started _ _ _ _ _ _ text) by assumption.
    rewrite Hsince. unfold resolve_since. rewrite (eqb_empty_false _ Hne).
    unfold GraphVariant.parse_since. rewrite Hiso, Hm. reflexivity.
  - unfold requests. rewrite omap_app. simpl. apply app_nil_r.
  - unfold writes. rewrite omap_app. simpl. apply app_nil_r.
Qed.

Lemma invalid_since_aborts_witness :
  ListVariant.main Sample.fromisoformat Sample.empty_remote Sample.env 1
    (Arguments (Some "yesterday") "octo/demo" Sample.out) (fresh_world Sample.disk)
  = (SysExit "'yesterday' is not a valid date", fresh_world Sample.disk).
Proof.
  assert (Hne : "yesterday" <> "") by discriminate.
  assert (Htok : GITHUB_TOKEN Sample.env <> "") by discriminate.
  assert (Hdir : arg_out_dir (Arguments (Some "yesterday") "octo/demo" Sample.out)
                   ∈ dirs (fs (fresh_world Sample.disk))).
  { vm_compute. reflexivity. }
  apply (proj1 (proj2 (proj2 (invalid_since_aborts Sample.fromisoformat
           Sample.empty_remote Sample.env 1
           (Arguments (Some "yesterday") "octo/demo" Sample.out)
           (fresh_world Sample.disk) "yesterday" "schema"
           eq_refl Hne eq_refl Htok Hdir eq_refl))) eq_refl).
Defined.

(** ** Structural reasoning *)

Lemma dict_get_set (k : string) (v : json) (d : list (string * json)) :
  Dict.get k (Dict.set k v d) = Some v.
Proof.
  induction d as [|[k' v'] d IH]; simpl.
  - rewrite String.eqb_refl. reflexivity.
  - destruct (String.eqb k k') eqn:E; simpl.
    + rewrite String.eqb_refl. reflexivity.
    + rewrite E. exact IH.
Qed.

Section Structure.

Variable P : forall A : Type, M A -> Prop.
Hypothesis HP : program_logic P.

Lemma logic_ret {A} (a : A) : P A (ret a).
Proof. apply (logic_lift P HP A (Ret a)). Qed.

Lemma logic_raise {A} (e : exn) : P A (raise e).
Proof. apply (logic_lift P HP A (Raise e)). Qed.

Lemma logic_sys_exit {A} (msg : string) : P A (sys_exit msg).
Proof. apply (logic_lift P HP A (SysExit msg)). Qed.

Lemma logic_out_of_fuel {A} : P A out_of_fuel.
Proof. apply (logic_lift P HP A OutOfFuel). Qed.

Lemma logic_subscript (j : json) (k : string) : P json (subscript j k).
Proof.
  unfold subscript. destruct j; try apply logic_raise.
  destruct (Dict.get k l); [apply logic_ret|apply logic_raise].
Qed.

Lemma logic_lift_bind {A B} (o : outcome A) (k : A -> M B) :
  (forall a, o = Ret a -> P B (k a)) -> P B (bind (lift o) k).
Proof.
  intros H. destruct o as [a|e|msg| |].
  - exact (H a eq_refl).
  - exact (logic_lift P HP B (Raise e)).
  - exact (logic_lift P HP B (SysExit msg)).
  - exact (logic_lift P HP B OutOfFuel).
  - exact (logic_lift P HP B Unmodelled).
Qed.

Lemma logic_for_each {A} (l : list A) (body : A -> M unit) :
  (forall x, P unit (body x)) -> P unit (for_each l body).
Proof.
  intros Hbody. induction l as [|x l IH]; simpl.
  - apply logic_ret.
  - apply (logic_bind P HP); [apply Hbody|intros _; exact IH].
Qed.

Lemma logic_since_block (parse : string -> outcome datetime) (a : option string) :
  P (option datetime)
    (match a with
     | Some s => if String.eqb s "" then ret None
                 else bind (lift (parse s)) (fun d => ret (Some d))
     | None => ret None
     end).
Proof.
  destruct a as [s|]; [|apply logic_ret].
  destruct (String.eqb s ""); [apply logic_ret|].
  apply (logic_bind P HP); [apply (logic_lift P HP)|intros d; apply logic_ret].
Qed.

Section ListVariant.

Variable fromisoformat : string -> option datetime.
Variable remote : nat -> option json.
Variable env : environ.
Variable out : path.

Hypothesis Hmkdir : forall sub, P unit (mkdir_exist_ok (child out sub)).
Hypothesis Hwrite : forall sub name text,
    P unit (write_text (child (child out sub) name) text).

Lemma list_write_item_logic (info : ScrapInfo) (dct : json) :
  out_dir info = out -> P unit (ListVariant.write_item info dct).
Proof.
  intros Hout. unfold ListVariant.write_item. rewrite Hout.
  apply (logic_bind P HP); [apply (logic_lift P HP)|intros pr].
  apply (logic_bind P HP); [apply Hmkdir|intros _].
  apply (logic_bind P HP); [apply logic_subscript|intros item_id].
  destruct (item_file_name item_id) as [name|]; [|apply (logic_lift P HP)].
  apply (logic_bind P HP); [apply logic_subscript|intros title].
  apply (logic_bind P HP); [apply (logic_log P HP)|intros _].
  apply Hwrite.
Qed.

Hypothesis Hget : forall req, P json (round_trip remote (EvGet req)).

Lemma list_after_reply_logic (info : ScrapInfo) (lst : json) :
  out_dir info = out -> P bool (list_after_reply info lst).
Proof.
  intros Hout. unfold list_after_reply.
  destruct lst as [| | | |lst|]; try apply logic_raise.
  destruct lst as [|dct lst].
  - apply (logic_bind P HP); [apply (logic_log P HP)|intros _; apply logic_ret].
  - apply (logic_bind P HP); [apply (logic_log P HP)|intros _].
    apply (logic_bind P HP); [|intros _; apply logic_ret].
    apply logic_for_each. intros x. apply list_write_item_logic, Hout.
Qed.

Lemma list_scrap_page_logic (info : ScrapInfo) (page : Z) :
  out_dir info = out -> P bool (ListVariant.scrap_page remote env info page).
Proof.
  intros Hout. unfold ListVariant.scrap_page.
  apply (logic_bind P HP); [apply (logic_log P HP)|intros _].
  apply (logic_bind P HP); [apply Hget|intros lst].
  apply (list_after_reply_logic info lst Hout).
Qed.

Lemma list_scrap_from_logic (fuel : nat) (info : ScrapInfo) (page : Z) :
  out_dir info = out -> P unit (ListVariant.scrap_from remote env fuel info page).
Proof.
  intros Hout. revert page. induction fuel as [|fuel IH]; intros page; simpl.
  - apply logic_out_of_fuel.
  - apply (logic_bind P HP); [apply list_scrap_page_logic, Hout|intros more].
    destruct more; [apply IH|apply logic_ret].
Qed.

Lemma list_scrap_logic (fuel : nat) (info : ScrapInfo) :
  out_dir info = out -> P unit (ListVariant.scrap remote env fuel info).
Proof.
  intros Hout. unfold ListVariant.scrap.
  apply (logic_bind P HP); [|intros _; apply list_scrap_from_logic, Hout].
  destruct (since info); apply (logic_log P HP).
Qed.

Lemma list_main_logic (fuel : nat) (args : arguments) :
  arg_out_dir args = out -> P bool (is_dir out) ->
  P Z (ListVariant.main fromisoformat remote env fuel args).
Proof.
  intros Hout Hdir. unfold ListVariant.main.
  destruct (String.eqb (GITHUB_TOKEN env) ""); [apply logic_sys_exit|].
  rewrite Hout.
  apply (logic_bind P HP); [exact Hdir|intros d].
  destruct d; cbn [negb]; [|apply logic_sys_exit].
  apply (logic_bind P HP); [apply logic_ret|intros _].
  apply (logic_bind P HP); [apply logic_since_block|intros since].
  apply (logic_bind P HP); [|intros _; apply logic_ret].
  apply list_scrap_logic. reflexivity.
Qed.

End ListVariant.

Section GraphVariant.

Variable fromisoformat : string -> option datetime.
Variable remote : nat -> option json.
Variable env : environ.
Variable out : path.

Hypothesis Hmkdir : P unit (mkdir_exist_ok (child out "issues")).
Hypothesis Hwrite : forall name d,
    Dict.get GraphVariant.FORMAT_KEY d = Some (JInt GraphVariant.FORMAT) ->
    P unit (write_text (child (child out "issues") name) (Dumps.dumps (JObj d))).

Lemma graph_write_edge_logic (info : ScrapInfo) (edge : json) :
  out_dir info = out -> P unit (GraphVariant.write_edge info edge).
Proof.
  intros Hout. unfold GraphVariant.write_edge. rewrite Hout.
  apply (logic_bind P HP); [apply logic_subscript|intros node].
  apply logic_lift_bind. intros dct Hdct.
  destruct node as [| | | | |d]; try discriminate Hdct.
  injection Hdct as <-.
  apply (logic_bind P HP); [apply Hmkdir|intros _].
  apply (logic_bind P HP); [apply logic_subscript|intros item_id].
  destruct (item_file_name item_id) as [name|]; [|apply (logic_lift P HP)].
  apply (logic_bind P HP); [apply logic_subscript|intros title].
  apply (logic_bind P HP); [apply (logic_log P HP)|intros _].
  apply Hwrite. apply dict_get_set.
Qed.

Hypothesis Hexecute : forall vars, P json (round_trip remote (EvExecute vars)).
Hypothesis Hclient : forall auth, P unit (emit (EvClient auth)).

Lemma graph_after_reply_logic (info : ScrapInfo) (result : json) :
  out_dir info = out -> P json (graph_after_reply info result).
Proof.
  intros Hout. unfold graph_after_reply.
  do 6 (apply (logic_bind P HP); [apply logic_subscript|intros ?]).
  apply (logic_bind P HP); [apply (logic_lift P HP)|intros items].
  apply (logic_bind P HP).
  { apply logic_for_each. intros x. apply graph_write_edge_logic, Hout. }
  intros _.
  apply (logic_bind P HP); [apply logic_subscript|intros has_next].
  destruct (truthy has_next); [apply logic_subscript|apply logic_ret].
Qed.

Lemma graph_scrap_page_logic (client : GraphVariant.Client) (info : ScrapInfo)
    (cursor : json) :
  out_dir info = out -> P json (GraphVariant.scrap_page remote client info cursor).
Proof.
  intros Hout. unfold GraphVariant.scrap_page.
  apply (logic_bind P HP); [apply (logic_log P HP)|intros _].
  apply (logic_bind P HP); [apply (logic_lift P HP)|intros on].
  apply (logic_bind P HP); [apply Hexecute|intros result].
  apply (graph_after_reply_logic info result Hout).
Qed.

Lemma graph_scrap_from_logic (fuel : nat) (client : GraphVariant.Client)
    (info : ScrapInfo) (cursor : json) :
  out_dir info = out -> P unit (GraphVariant.scrap_from remote fuel client info cursor).
Proof.
  intros Hout. revert cursor. induction fuel as [|fuel IH]; intros cursor; simpl.
  - apply logic_out_of_fuel.
  - apply (logic_bind P HP); [apply graph_scrap_page_logic, Hout|intros cursor'].
    destruct cursor'; try apply IH. apply logic_ret.
Qed.

Lemma graph_scrap_logic (fuel : nat) (client : GraphVariant.Client) (info : ScrapInfo) :
  out_dir info = out -> P unit (GraphVariant.scrap remote fuel client info).
Proof.
  intros Hout. unfold GraphVariant.scrap.
  apply (logic_bind P HP); [|intros _; apply graph_scrap_from_logic, Hout].
  destruct (since info); apply (logic_log P HP).
Qed.

Lemma graph_main_logic (fuel : nat) (args : arguments) :
  arg_out_dir args = out -> P bool (is_dir out) ->
  P Z (GraphVariant.main fromisoformat remote env fuel args).
Proof.
  intros Hout Hdir. unfold GraphVariant.main. rewrite Hout.
  apply (logic_bind P HP); [exact Hdir|intros d].
  destruct d; cbn [negb]; [|apply logic_sys_exit].
  apply (logic_bind P HP); [apply logic_ret|intros _]. cbv zeta.
  destruct (String.eqb (GITHUB_TOKEN env) "").
  { apply (logic_bind P HP); [apply (logic_log P HP)|intros _; apply logic_ret]. }
  apply (logic_bind P HP).
  { unfold GraphVariant.create_client. destruct (schema env); [|apply logic_raise].
    apply (logic_bind P HP); [apply Hclient|intros _; apply logic_ret]. }
  intros client.
  apply (logic_bind P HP); [apply logic_since_block|intros since].
  apply (logic_bind P HP); [|intros _; apply logic_ret].
  apply graph_scrap_logic. reflexivity.
Qed.

End GraphVariant.

End Structure.

(** ** Relations kept along a run *)

Lemma preserves_logic (R : world -> world -> Prop) :
  (forall w, R w w) ->
  (forall a b c, R a b -> R b c -> R a c) ->
  (forall w level fmt args,
      R w (World (fs w) (trace w ++ [EvLog level fmt args]) (sent w))) ->
  program_logic (preserves R).
Proof.
  intros Hrefl Htrans Hlog. split.
  - intros A o w. apply Hrefl.
  - intros A B m k Hm Hk w. unfold bind.
    specialize (Hm w). destruct (m w) as [o w1]. simpl in Hm.
    destruct o; simpl; try exact Hm.
    eapply Htrans; [exact Hm|apply Hk].
  - intros level fmt args w. apply Hlog.
Qed.

Lemma quiet_refl (w : world) : quiet w w.
Proof.
  split; [reflexivity|]. exists []. rewrite app_nil_r. repeat split.
Qed.

Lemma quiet_trans (a b c : world) : quiet a b -> quiet b c -> quiet a c.
Proof.
  intros (Hs1 & t1 & Ht1 & Hr1 & Hc1) (Hs2 & t2 & Ht2 & Hr2 & Hc2).
  split; [congruence|]. exists (t1 ++ t2).
  rewrite Ht2, Ht1, app_assoc. split; [reflexivity|].
  unfold requests, clients in *. rewrite !omap_app, Hr1, Hr2, Hc1, Hc2.
  split; reflexivity.
Qed.

Lemma quiet_event (w : world) (e : event) :
  requests [e] = [] -> clients [e] = [] ->
  quiet w (World (fs w) (trace w ++ [e]) (sent w)).
Proof. intros Hr Hc. split; [reflexivity|]. exists [e]. repeat split; assumption. Qed.

Lemma quiet_logic : program_logic (preserves quiet).
Proof.
  apply preserves_logic.
  - apply quiet_refl.
  - apply quiet_trans.
  - intros w level fmt args. apply quiet_event; reflexivity.
Qed.

Lemma quiet_mkdir (p : path) : preserves quiet unit (mkdir_exist_ok p).
Proof.
  intros w. unfold mkdir_exist_ok.
  repeat case_match; simpl; try apply quiet_refl.
  apply (quiet_event w (EvMkdir p)); reflexivity.
Qed.

Lemma quiet_write (p : path) (text : string) : preserves quiet unit (write_text p text).
Proof.
  intros w. unfold write_text.
  repeat case_match; simpl; try apply quiet_refl.
  apply (quiet_event w (EvWrite p text)); reflexivity.
Qed.

Lemma requests_app (t t' : list event) : requests (t ++ t') = requests t ++ requests t'.
Proof. apply omap_app. Qed.

(** Every call of the list variant's [scrap_page] sends exactly one
    request, the one for its page index. *)
Lemma list_scrap_page_one_request (remote : nat -> option json) (env : environ)
    (info : ScrapInfo) (page : Z) (w : world) :
  exists o w',
    ListVariant.scrap_page remote env info page w = (o, w') /\
    sent w' = S (sent w) /\
    requests (trace w')
    = requests (trace w) ++ [EvGet (ListVariant.request env info page)].
Proof.
  change (ListVariant.scrap_page remote env info page)
    with (bind (log INFO "Scraping page %d" [AInt page])
            (fun _ => bind (round_trip remote (EvGet (ListVariant.request env info page)))
                        (list_after_reply info))).
  unfold bind at 1. cbn [log emit]. unfold bind at 1. unfold round_trip. cbn [fs trace sent].
  destruct (remote (sent w)) as [lst|].
  - pose proof (list_after_reply_logic _ quiet_logic (out_dir info)
                  (fun sub => quiet_mkdir _) (fun sub name text => quiet_write _ _)
                  info lst eq_refl) as Hq.
    match goal with |- context [list_after_reply info lst ?w1] =>
      specialize (Hq w1); destruct (list_after_reply info lst w1) as [o w'] end.
    destruct Hq as (Hs & t & Ht & Hr & _). cbn [snd sent trace] in *.
    exists o, w'. split; [reflexivity|]. split; [exact Hs|].
    rewrite Ht, <- !app_assoc, !requests_app, Hr. simpl. reflexivity.
  - eexists _, _. split; [reflexivity|]. split; [reflexivity|]. cbn [trace].
    rewrite <- !app_assoc, !requests_app. reflexivity.
Qed.

(** Every call of the graph variant's [scrap_page] on a well-shaped
    project sends exactly one request, with the cursor it was given. *)
Lemma graph_scrap_page_one_request (remote : nat -> option json)
    (client : GraphVariant.Client) (info : ScrapInfo) (cursor : json) (w : world)
    (owner name : string) :
  GraphVariant.split_slash (project info) = [owner; name] ->
  exists o w',
    GraphVariant.scrap_page remote client info cursor w = (o, w') /\
    sent w' = S (sent w) /\
    requests (trace w')
    = requests (trace w) ++ [EvExecute (GqlVariables owner name (since info) cursor)].
Proof.
  intros Hsplit.
  change (GraphVariant.scrap_page remote client info cursor)
    with (bind (log INFO "Scraping page %s" [AJson cursor])
            (fun _ => bind (lift (GraphVariant.unpack2 (GraphVariant.split_slash (project info))))
               (fun on => bind (round_trip remote
                                  (EvExecute (GqlVariables (fst on) (snd on) (since info) cursor)))
                            (graph_after_reply info)))).
  rewrite Hsplit. unfold bind at 1. cbn [log emit].
  rewrite lift_bind. cbn [GraphVariant.unpack2 fst snd].
  unfold bind at 1. unfold round_trip. cbn [fs trace sent].
  destruct (remote (sent w)) as [result|].
  - pose proof (graph_after_reply_logic _ quiet_logic (out_dir info)
                  (quiet_mkdir _) (fun name d _ => quiet_write _ _)
                  info result eq_refl) as Hq.
    match goal with |- context [graph_after_reply info result ?w1] =>
      specialize (Hq w1); destruct (graph_after_reply info result w1) as [o w'] end.
    destruct Hq as (Hs & t & Ht & Hr & _). cbn [snd sent trace] in *.
    exists o, w'. split; [reflexivity|]. split; [exact Hs|].
    rewrite Ht, <- !app_assoc, !requests_app, Hr. simpl. reflexivity.
  - eexists _, _. split; [reflexivity|]. split; [reflexivity|]. cbn [trace].
    rewrite <- !app_assoc, !requests_app. reflexivity.
Qed.

(** ** The list variant's pagination *)

Lemma list_scrap_page_reply (remote : nat -> option json) (env : environ)
    (info : ScrapInfo) (page : Z) (w : world) (lst : json) :
  remote (sent w) = Some lst ->
  ListVariant.scrap_page remote env info page w
  = list_after_reply info lst
      (asked w (EvLog INFO "Scraping page %d" [AInt page])
         (EvGet (ListVariant.request env info page))).
Proof.
  intros Hremote.
  change (ListVariant.scrap_page remote env info page)
    with (bind (log INFO "Scraping page %d" [AInt page])
            (fun _ => bind (round_trip remote (EvGet (ListVariant.request env info page)))
                        (list_after_reply info))).
  unfold bind at 1. cbn [log emit]. unfold bind at 1. unfold round_trip.
  cbn [fs trace sent]. rewrite Hremote. reflexivity.
Qed.



(** A first page of exactly 100 items is followed by a second request; a
    first page of 99 items is not. *)
Example full_page_asks_again :
  let result := ListVariant.scrap (Sample.first_page_remote 100) Sample.env 5 Sample.info
               (fresh_world Sample.disk) in
  fst result = Ret tt /\
  requests (trace (snd result))
  = [EvGet (ListVariant.request Sample.env Sample.info 1);
     EvGet (ListVariant.request Sample.env Sample.info 2)].
Proof. vm_compute. split; reflexivity. Qed.

Example short_page_stops :
  let result := ListVariant.scrap (Sample.first_page_remote 99) Sample.env 5 Sample.info
               (fresh_world Sample.disk) in
  fst result = Ret tt /\
  requests (trace (snd result)) = [EvGet (ListVariant.request Sample.env Sample.info 1)] /\
  length (writes (trace (snd result))) = 99%nat.
Proof. vm_compute. repeat split; reflexivity. Qed.

(** ** The project identifier *)

Lemma split_slash_length (s : string) :
  length (GraphVariant.split_slash s) = S (count_slash s).
Proof.
  induction s as [|c s IH]; simpl; [reflexivity|].
  destruct (Ascii.eqb c "/"); simpl; [rewrite IH; reflexivity|].
  destruct (GraphVariant.split_slash s); simpl in *; [discriminate|exact IH].
Qed.

Lemma unpack2_fails (s : string) :
  count_slash s <> 1%nat ->
  GraphVariant.unpack2 (GraphVariant.split_slash s) = Raise ValueError.
Proof.
  intros Hc. pose proof (split_slash_length s) as Hl.
  destruct (GraphVariant.split_slash s) as [|a [|b [|c l]]]; simpl in *;
    try reflexivity.
  congruence.
Qed.

Lemma continues_refl (w : world) : continues w w.
Proof. exists []. symmetry. apply app_nil_r. Qed.

Lemma continues_trans (a b c : world) : continues a b -> continues b c -> continues a c.
Proof.
  intros [t1 H1] [t2 H2]. exists (t1 ++ t2). rewrite H2, H1, app_assoc. reflexivity.
Qed.

Lemma continues_logic : program_logic (preserves continues).
Proof.
  apply preserves_logic.
  - apply continues_refl.
  - apply continues_trans.
  - intros w level fmt args. eexists. reflexivity.
Qed.

Lemma continues_mkdir (p : path) : preserves continues unit (mkdir_exist_ok p).
Proof.
  intros w. unfold mkdir_exist_ok.
  repeat case_match; simpl; try apply continues_refl. eexists. reflexivity.
Qed.

Lemma continues_write (p : path) (text : string) :
  preserves continues unit (write_text p text).
Proof.
  intros w. unfold write_text.
  repeat case_match; simpl; try apply continues_refl. eexists. reflexivity.
Qed.

Lemma continues_round_trip (remote : nat -> option json) (e : event) :
  preserves continues json (round_trip remote e).
Proof. intros w. unfold round_trip. case_match; simpl; eexists; reflexivity. Qed.

Lemma continues_bind {A B} (m : M A) (k : A -> M B) (w w1 : world) (o : outcome A) :
  m w = (o, w1) -> (forall a, preserves continues B (k a)) ->
  continues w1 (snd (bind m k w)).
Proof.
  intros Hm Hk. unfold bind. rewrite Hm.
  destruct o; simpl; try apply continues_refl. apply Hk.
Qed.

(** C10: neither program looks at the shape of the project
    identifier when it starts.  Once the token, the output directory,
    the schema file and [--since] are in order, the list variant sends
    its first request with the identifier pasted into the URL whatever
    it is; the graph variant builds its client and, when the identifier
    does not hold exactly one slash, fails with the [ValueError] of the
    unpacking in the first call of [scrap_page], before any request and
    any write. *)
Theorem project_shape_not_validated
    (fromisoformat : string -> option datetime) (remote : nat -> option json)
    (env : environ) (fuel : nat) (args : arguments) (w : world) (text : string)
    (since_list since_graph : option datetime) :
  GITHUB_TOKEN env <> "" -> arg_out_dir args ∈ dirs (fs w) -> schema env = Some text ->
  resolve_since (ListVariant.parse_since fromisoformat env) (arg_since args)
    = Ret since_list ->
  resolve_since (GraphVariant.parse_since fromisoformat env) (arg_since args)
    = Ret since_graph ->
  (exists o w' more,
     ListVariant.main fromisoformat remote env (S fuel) args w = (o, w') /\
     requests (trace w')
     = requests (trace w)
       ++ EvGet (RestRequest
                   ("https://api.github.com/repos/" +:+ arg_project args +:+ "/issues")
                   (headers (ListVariant.request env
                               (MkScrapInfo (arg_project args) (arg_out_dir args) since_list) 1))
                   (params (ListVariant.request env
                              (MkScrapInfo (arg_project args) (arg_out_dir args) since_list) 1)))
          :: more) /\
  (count_slash (arg_project args) <> 1%nat ->
   (forall client info cursor w0,
      project info = arg_project args ->
      GraphVariant.scrap_page remote client info cursor w0
      = (Raise ValueError, logged w0 INFO "Scraping page %s" [AJson cursor])) /\
   exists w',
     GraphVariant.main fromisoformat remote env (S fuel) args w = (Raise ValueError, w') /\
     clients (trace w')
     = clients (trace w) ++ [EvClient ("Bearer " +:+ GITHUB_TOKEN env)] /\
     requests (trace w') = requests (trace w) /\
     writes (trace w') = writes (trace w) /\
     fs w' = fs w).
Proof.
  intros Htok Hdir Hschema Hl Hg. split.
  - rewrite list_main_started by assumption. rewrite Hl, lift_bind.
    set (info := MkScrapInfo (arg_project args) (arg_out_dir args) since_list).
    set (w1 := snd (match since info with
                    | Some d => log INFO "Starting, scraping all issues for %s since %s"
                                  [AStr (project info); ATime d]
                    | None => log INFO "Starting, scraping issues for %s" [AStr (project info)]
                    end w)).
    assert (Hw1 : requests (trace w1) = requests (trace w)).
    { subst w1. destruct (since info); simpl; rewrite requests_app; apply app_nil_r. }
    destruct (list_scrap_page_one_request remote env info 1 w1)
      as (o1 & w3 & Hcall & _ & Hreq).
    pose (k1 := fun more : bool =>
                  if more then ListVariant.scrap_from remote env fuel info (1 + 1)
                  else ret tt).
    assert (Hk1 : forall a, preserves continues unit (k1 a)).
    { intros a. destruct a; [|apply (logic_ret _ continues_logic)].
      apply (list_scrap_from_logic _ continues_logic remote env (out_dir info));
        auto using continues_mkdir, continues_write, continues_round_trip. }
    pose proof (continues_bind _ k1 _ _ _ Hcall Hk1) as Hc1.
    assert (Hscrap : ListVariant.scrap remote env (S fuel) info w
                     = bind (ListVariant.scrap_page remote env info 1) k1 w1).
    { unfold ListVariant.scrap. subst w1. destruct (since info); reflexivity. }
    destruct (bind (ListVariant.scrap_page remote env info 1) k1 w1) as [o2 w4] eqn:E2.
    pose proof (continues_bind _ (fun _ : unit => ret 0) _ _ _ Hscrap
                  (fun _ => logic_ret _ continues_logic 0)) as Hc2.
    destruct (bind (ListVariant.scrap remote env (S fuel) info) (fun _ => ret 0) w)
      as [o w'] eqn:E.
    simpl in Hc1, Hc2. destruct Hc1 as [t1 Ht1]. destruct Hc2 as [t2 Ht2].
    exists o, w', (requests t1 ++ requests t2). split; [reflexivity|].
    rewrite Ht2, Ht1, !requests_app, Hreq, Hw1, <- !app_assoc. reflexivity.
  - intros Hcount. split.
    + intros client info cursor w0 Hproj.
      unfold GraphVariant.scrap_page. unfold bind at 1. cbn [log emit].
      rewrite Hproj, (unpack2_fails _ Hcount). reflexivity.
    + rewrite (graph_main_started _ _ _ _ _ _ text) by assumption.
      rewrite Hg, lift_bind. unfold GraphVariant.scrap.
      cbn [GraphVariant.scrap_from].
      destruct since_graph; (eexists; split;
        [ unfold bind at 1; unfold bind at 1; cbn [since log emit];
          unfold bind at 1; unfold GraphVariant.scrap_page; unfold bind at 1;
          cbn [log emit project]; rewrite (unpack2_fails _ Hcount); reflexivity
        | cbn [trace fs]; unfold clients, requests, writes;
          rewrite !omap_app; simpl; rewrite !app_nil_r; repeat split; reflexivity ]).
Qed.

Lemma project_shape_not_validated_witness :
  exists w',
    GraphVariant.main Sample.fromisoformat Sample.empty_remote Sample.env 1
      Sample.args_no_slash (fresh_world Sample.disk) = (Raise ValueError, w') /\
    clients (trace w') = [EvClient "Bearer secret"] /\
    requests (trace w') = [] /\
    writes (trace w') = [] /\
    fs w' = Sample.disk.
Proof.
  assert (Htok : GITHUB_TOKEN Sample.env <> "") by discriminate.
  assert (Hdir : arg_out_dir Sample.args_no_slash ∈ dirs (fs (fresh_world Sample.disk))).
  { vm_compute. reflexivity. }
  assert (Hcount : count_slash (arg_project Sample.args_no_slash) <> 1%nat)
    by discriminate.
  exact (proj2 (proj2 (project_shape_not_validated Sample.fromisoformat
           Sample.empty_remote Sample.env O Sample.args_no_slash
           (fresh_world Sample.disk) "schema" None None
           Htok Hdir eq_refl eq_refl eq_refl) Hcount)).
Defined.

(** ** The graph variant's pagination *)

Lemma subscript_bind_some {B} (d : list (string * json)) (k : string) (v : json)
    (f : json -> M B) (w : world) :
  Dict.get k d = Some v -> bind (subscript (JObj d) k) f w = f v w.
Proof. intros H. unfold subscript. rewrite H. reflexivity. Qed.

Lemma subscript_bind_none {B} (d : list (string * json)) (k : string)
    (f : json -> M B) (w : world) :
  Dict.get k d = None -> bind (subscript (JObj d) k) f w = (Raise (KeyError k), w).
Proof. intros H. unfold subscript. rewrite H. reflexivity. Qed.

Lemma graph_scrap_page_reply (remote : nat -> option json)
    (client : GraphVariant.Client) (info : ScrapInfo) (cursor : json) (w : world)
    (owner name : string) (result : json) :
  GraphVariant.split_slash (project info) = [owner; name] ->
  remote (sent w) = Some result ->
  GraphVariant.scrap_page remote client info cursor w
  = graph_after_reply info result
      (asked w (EvLog INFO "Scraping page %s" [AJson cursor])
         (EvExecute (GqlVariables owner name (since info) cursor))).
Proof.
  intros Hsplit Hremote.
  change (GraphVariant.scrap_page remote client info cursor)
    with (bind (log INFO "Scraping page %s" [AJson cursor])
            (fun _ => bind (lift (GraphVariant.unpack2 (GraphVariant.split_slash (project info))))
               (fun on => bind (round_trip remote
                                  (EvExecute (GqlVariables (fst on) (snd on) (since info) cursor)))
                            (graph_after_reply info)))).
  rewrite Hsplit. unfold bind at 1. cbn [log emit].
  rewrite lift_bind. cbn [GraphVariant.unpack2 fst snd].
  unfold bind at 1. unfold round_trip. cbn [fs trace sent]. rewrite Hremote. reflexivity.
Qed.

(** C2, as stated, fails when the flag is true and the cursor is
    null: [scrap_page] returns the null cursor, which the loop takes for
    the end, so no next call is made. *)
Lemma null_cursor_counterexample :
  let result := GraphVariant.scrap Sample.more_without_cursor 5 Sample.client Sample.info
                  (fresh_world Sample.disk) in
  Sample.more_without_cursor 0 = Some (Sample.graph_reply [Sample.item 7] (JBool true) JNull) /\
  fst result = Ret tt /\
  requests (trace (snd result))
  = [EvExecute (GqlVariables "octo" "demo" None JNull)].
Proof. vm_compute. repeat split; reflexivity. Qed.

(** C2, amended: the continuation rule of the graph variant.  When
    the reply has the expected shape and the items of the page are written
    without an error, [scrap_page] has written them all before it looks
    at the page information.  If [hasNextPage] is false it returns no
    cursor, whatever [endCursor] is, and the loop ends.  If it is true,
    [endCursor] is returned as it is: when it is not null the loop calls
    [scrap_page] again with it, and that call sends one request carrying
    it; when it is null the loop ends as well.  The first call has no
    cursor. *)
Theorem graph_continuation_rule (remote : nat -> option json)
    (client : GraphVariant.Client) (info : ScrapInfo) (cursor : json) (w w2 : world)
    (owner name : string) (result repository issues page_info : list (string * json))
    (edges : json) (items : list json) :
  GraphVariant.split_slash (project info) = [owner; name] ->
  remote (sent w) = Some (JObj result) ->
  Dict.get "repository" result = Some (JObj repository) ->
  Dict.get "issues" repository = Some (JObj issues) ->
  Dict.get "edges" issues = Some edges ->
  Dict.get "pageInfo" issues = Some (JObj page_info) ->
  GraphVariant.iterate edges = Ret items ->
  for_each items (GraphVariant.write_edge info)
    (asked w (EvLog INFO "Scraping page %s" [AJson cursor])
       (EvExecute (GqlVariables owner name (since info) cursor))) = (Ret tt, w2) ->
  GraphVariant.scrap_page remote client info cursor w = (next_cursor page_info, w2) /\
  (forall has_next fuel,
     Dict.get "hasNextPage" page_info = Some has_next ->
     (truthy has_next = false ->
      next_cursor page_info = Ret JNull /\
      GraphVariant.scrap_from remote (S fuel) client info cursor w = (Ret tt, w2)) /\
     (truthy has_next = true ->
      forall end_cursor,
        Dict.get "endCursor" page_info = Some end_cursor ->
        next_cursor page_info = Ret end_cursor /\
        (end_cursor = JNull ->
         GraphVariant.scrap_from remote (S fuel) client info cursor w = (Ret tt, w2)) /\
        (end_cursor <> JNull ->
         GraphVariant.scrap_from remote (S fuel) client info cursor w
         = GraphVariant.scrap_from remote fuel client info end_cursor w2 /\
         exists o w3,
           GraphVariant.scrap_page remote client info end_cursor w2 = (o, w3) /\
           requests (trace w3)
           = requests (trace w2)
             ++ [EvExecute (GqlVariables owner name (since info) end_cursor)]))) /\
  (forall fuel w0, exists w0',
     quiet w0 w0' /\
     GraphVariant.scrap remote fuel client info w0
     = GraphVariant.scrap_from remote fuel client info JNull w0').
Proof.
  intros Hsplit Hremote Hrep Hiss Hedges Hpi Hiter Hitems.
  assert (Hpage : GraphVariant.scrap_page remote client info cursor w
                  = (next_cursor page_info, w2)).
  { rewrite (graph_scrap_page_reply _ _ _ _ _ _ _ _ Hsplit Hremote).
    unfold graph_after_reply.
    rewrite (subscript_bind_some _ _ _ _ _ Hrep), (subscript_bind_some _ _ _ _ _ Hiss),
      (subscript_bind_some _ _ _ _ _ Hedges),
      (subscript_bind_some _ _ _ _ _ Hrep), (subscript_bind_some _ _ _ _ _ Hiss),
      (subscript_bind_some _ _ _ _ _ Hpi).
    rewrite lift_bind, Hiter. unfold bind at 1. rewrite Hitems.
    unfold next_cursor.
    destruct (Dict.get "hasNextPage" page_info) as [has_next|] eqn:Eh.
    - rewrite (subscript_bind_some _ _ _ _ _ Eh).
      destruct (truthy has_next); [|reflexivity].
      unfold subscript. destruct (Dict.get "endCursor" page_info); reflexivity.
    - rewrite (subscript_bind_none _ _ _ _ Eh). reflexivity. }
  split; [exact Hpage|]. split.
  - intros has_next fuel Hh. split.
    + intros Hfalse.
      assert (Hn : next_cursor page_info = Ret JNull).
      { unfold next_cursor. rewrite Hh, Hfalse. reflexivity. }
      split; [exact Hn|].
      cbn [GraphVariant.scrap_from]. unfold bind. rewrite Hpage, Hn. reflexivity.
    + intros Htrue end_cursor Hc.
      assert (Hn : next_cursor page_info = Ret end_cursor).
      { unfold next_cursor. rewrite Hh, Htrue, Hc. reflexivity. }
      split; [exact Hn|]. split.
      * intros ->. cbn [GraphVariant.scrap_from]. unfold bind.
        rewrite Hpage, Hn. reflexivity.
      * intros Hne. split.
        -- cbn [GraphVariant.scrap_from]. unfold bind. rewrite Hpage, Hn.
           destruct end_cursor; try reflexivity. contradiction.
        -- destruct (graph_scrap_page_one_request remote client info end_cursor w2
                       owner name Hsplit) as (o & w3 & Hcall & _ & Hreq).
           exists o, w3. split; assumption.
  - intros fuel w0. unfold GraphVariant.scrap.
    destruct (since info) as [d|].
    + exists (logged w0 INFO "Starting, scraping all issues for %s since %s"
                [AStr (project info); ATime d]).
      split; [apply quiet_event; reflexivity|reflexivity].
    + exists (logged w0 INFO "Starting, scraping issues for %s" [AStr (project info)]).
      split; [apply quiet_event; reflexivity|reflexivity].
Qed.

Lemma graph_continuation_rule_witness :
  GraphVariant.scrap_page Sample.two_pages Sample.client Sample.info JNull
    (fresh_world Sample.disk)
  = (Ret (JStr "Y3Vyc29yOjE="),
     snd (for_each [JObj [("node", Sample.item 1)]] (GraphVariant.write_edge Sample.info)
            (asked (fresh_world Sample.disk)
               (EvLog INFO "Scraping page %s" [AJson JNull])
               (EvExecute (GqlVariables "octo" "demo" None JNull))))).
Proof.
  refine (proj1 (graph_continuation_rule Sample.two_pages Sample.client Sample.info JNull
            (fresh_world Sample.disk) _ "octo" "demo"
            _ _ _ _ (JArr [JObj [("node", Sample.item 1)]]) [JObj [("node", Sample.item 1)]]
            eq_refl eq_refl eq_refl eq_refl eq_refl eq_refl eq_refl _)).
  vm_compute. reflexivity.
Defined.

(** ** The item writers *)

Lemma parent_child (p : path) (name : string) : parent (child p name) = p.
Proof. unfold parent, child. apply removelast_last. Qed.

Lemma child_neq (p : path) (name : string) : child p name <> p.
Proof.
  unfold child. intros H. apply (f_equal (@length string)) in H.
  rewrite length_app in H. simpl in H. lia.
Qed.

Lemma insert_sorted_perm (e : string * string) (l : list (string * string)) :
  Dumps.insert_sorted e l ≡ₚ e :: l.
Proof.
  induction l as [|e' l IH]; simpl; [reflexivity|].
  destruct (String.leb (fst e) (fst e')); [reflexivity|].
  rewrite IH. apply Permutation_swap.
Qed.

Lemma sort_items_perm (l : list (string * string)) : Dumps.sort_items l ≡ₚ l.
Proof.
  induction l as [|e l IH]; simpl; [reflexivity|].
  rewrite insert_sorted_perm, IH. reflexivity.
Qed.

Lemma insert_sorted_hd (e a : string * string) (l : list (string * string)) :
  key_le a e -> HdRel key_le a l -> HdRel key_le a (Dumps.insert_sorted e l).
Proof.
  intros Hae Hal. destruct l as [|e' l]; simpl.
  - constructor. exact Hae.
  - destruct (String.leb (fst e) (fst e')); constructor; [exact Hae|].
    inversion Hal. assumption.
Qed.

Lemma insert_sorted_sorted (e : string * string) (l : list (string * string)) :
  Sorted key_le l -> Sorted key_le (Dumps.insert_sorted e l).
Proof.
  induction 1 as [|e' l Hs IH Hhd]; simpl.
  - repeat constructor.
  - destruct (String.leb (fst e) (fst e')) eqn:E.
    + constructor; [constructor; assumption|]. constructor. exact E.
    + constructor; [exact IH|]. apply insert_sorted_hd; [|exact Hhd].
      unfold key_le. destruct (String.leb_total (fst e) (fst e')); congruence.
Qed.

(** The encoder writes the entries of an object in the order of their
    keys. *)
Lemma sort_items_sorted (l : list (string * string)) : Sorted key_le (Dumps.sort_items l).
Proof.
  induction l as [|e l IH]; simpl; [constructor|].
  apply insert_sorted_sorted, IH.
Qed.

(** The text of an object: one entry a line, two spaces in, keys in
    order. *)
Lemma dumps_object (d : list (string * json)) :
  Dumps.dumps (JObj d)
  = Dumps.block "{" "}" 0
      (map render_entry
         (Dumps.sort_items (map (fun e => (fst e, Dumps.encode 1 (snd e))) d))).
Proof. reflexivity. Qed.



(** The example of the specification: one pull request, then an empty
    page. *)
Example one_pull_request_end_to_end :
  let result := ListVariant.main Sample.fromisoformat Sample.one_pull_remote Sample.env 5
                  Sample.args (fresh_world Sample.disk) in
  fst result = Ret 0 /\
  map_to_list (files (fs (snd result)))
  = [(["out"; "pulls"; "7.json"], Dumps.dumps Sample.pull)] /\
  Dumps.dumps Sample.pull
  = "{" +:+ Dumps.nl
    +:+ "  " +:+ Dumps.quote +:+ "number" +:+ Dumps.quote +:+ ": 7," +:+ Dumps.nl
    +:+ "  " +:+ Dumps.quote +:+ "pull_request" +:+ Dumps.quote +:+ ": {}," +:+ Dumps.nl
    +:+ "  " +:+ Dumps.quote +:+ "title" +:+ Dumps.quote +:+ ": "
    +:+ Dumps.quote +:+ "Fix bug" +:+ Dumps.quote +:+ Dumps.nl
    +:+ "}".
Proof. vm_compute. repeat split; reflexivity. Qed.

Section Stamped.

Variable out : path.










End Stamped.


Example two_pages_stamped :
  map_to_list (files (fs (snd (GraphVariant.scrap Sample.two_pages 5 Sample.client
                                 Sample.info (fresh_world Sample.disk)))))
  = [(["out"; "issues"; "2.json"],
      Dumps.dumps (JObj [("number", JInt 2); ("title", JStr "Fix bug"); ("_format", JInt 2)]));
     (["out"; "issues"; "1.json"],
      Dumps.dumps (JObj [("number", JInt 1); ("title", JStr "Fix bug"); ("_format", JInt 2)]))].
Proof. vm_compute. reflexivity. Qed.

(** ** Running the scraper twice *)

Section Replay.

Variable out : path.

Lemma grows_refl (f : filesystem) : grows out f f.
Proof. split; [reflexivity|]. split; intros; [assumption|reflexivity]. Qed.

Lemma grows_trans (a b c : filesystem) : grows out a b -> grows out b c -> grows out a c.
Proof.
  intros (Hd1 & Hb1 & Hf1) (Hd2 & Hb2 & Hf2). split; [|split].
  - etransitivity; eassumption.
  - intros q Hq Hin. apply Hb1; [exact Hq|]. apply Hb2; assumption.
  - intros q Hq. rewrite Hf2, Hf1 by exact Hq. reflexivity.
Qed.

Lemma settles_grows {A} (o : outcome A) (f f' f1 : filesystem) :
  grows out f f' -> settles out o f' f1 -> grows out f f1.
Proof.
  intros Hg Hs. destruct o; simpl in Hs; subst; try exact Hg.
  eapply grows_trans; eassumption.
Qed.

(** What the two runs agree on, whatever they have written so far. *)
Lemma in_step_out (f1 : filesystem) (wa wb : world) :
  grows out (fs wa) f1 -> in_step f1 wa wb ->
  (out ∈ dirs (fs wb) <-> out ∈ dirs (fs wa)).
Proof.
  intros (Hd & Hb & _) (_ & Hdirs & _). rewrite Hdirs. split.
  - apply Hb. lia.
  - apply Hd.
Qed.

Lemma in_step_files (f1 : filesystem) (wa wb : world) (q : path) :
  grows out (fs wa) f1 -> in_step f1 wa wb ->
  length q <> S (S (length out)) ->
  files (fs wb) !! q = files (fs wa) !! q.
Proof.
  intros (_ & _ & Hf) (_ & _ & Hm) Hq.
  destruct (Hm q) as [H|H]; [|exact H]. rewrite H. apply Hf, Hq.
Qed.

Lemma in_step_dirs_incl (f1 : filesystem) (wa wb : world) (q : path) :
  grows out (fs wa) f1 -> in_step f1 wa wb ->
  q ∈ dirs (fs wa) -> q ∈ dirs (fs wb).
Proof. intros (Hd & _ & _) (_ & Hdirs & _) Hin. rewrite Hdirs. apply Hd, Hin. Qed.

Lemma in_step_dirs_back (f1 : filesystem) (wa wb : world) (q : path) :
  grows out (fs wa) f1 -> in_step f1 wa wb ->
  length q <> S (length out) ->
  q ∈ dirs (fs wb) -> q ∈ dirs (fs wa).
Proof.
  intros (_ & Hb & _) (_ & Hdirs & _) Hq Hin. rewrite Hdirs in Hin. apply Hb; assumption.
Qed.

Lemma replays_logic : program_logic (replays out).
Proof.
  split.
  - intros A o. split.
    + intros w. apply grows_refl.
    + intros f1 wa wb _ Hstep. split; [reflexivity|exact Hstep].
  - intros A B m k [Hgm Hrm] Hk. split.
    + intros w. unfold bind. specialize (Hgm w).
      destruct (m w) as [o w1]. simpl in Hgm.
      destruct o; simpl; try exact Hgm.
      eapply grows_trans; [exact Hgm|]. apply (proj1 (Hk a)).
    + intros f1 wa wb. unfold bind.
      specialize (Hrm f1 wa wb).
      destruct (m wa) as [oa wa1] eqn:Ea. destruct (m wb) as [ob wb1] eqn:Eb.
      simpl in Hrm.
      destruct oa as [a|e|msg| |]; simpl; intros Hset Hstep.
      * destruct (Hk a) as [Hgk Hrk].
        assert (Hset1 : grows out (fs wa1) f1).
        { eapply settles_grows; [apply (Hgk wa1)|exact Hset]. }
        destruct (Hrm Hset1 Hstep) as [-> Hstep1].
        apply Hrk; assumption.
      * destruct (Hrm Hset Hstep) as [-> Hstep1]. split; [reflexivity|exact Hstep1].
      * destruct (Hrm Hset Hstep) as [-> Hstep1]. split; [reflexivity|exact Hstep1].
      * destruct (Hrm Hset Hstep) as [-> Hstep1]. split; [reflexivity|exact Hstep1].
      * destruct (Hrm Hset Hstep) as [-> Hstep1]. split; [reflexivity|exact Hstep1].
  - intros level fmt args. split.
    + intros w. apply grows_refl.
    + intros f1 wa wb _ Hstep. split; [reflexivity|exact Hstep].
Qed.

Lemma replays_client (auth : string) : replays out unit (emit (EvClient auth)).
Proof.
  split.
  - intros w. apply grows_refl.
  - intros f1 wa wb _ Hstep. split; [reflexivity|exact Hstep].
Qed.

Lemma replays_round_trip (remote : nat -> option json) (e : event) :
  replays out json (round_trip remote e).
Proof.
  split.
  - intros w. unfold round_trip. case_match; apply grows_refl.
  - intros f1 wa wb _ (Hsent & Hdirs & Hfiles). unfold round_trip. rewrite Hsent.
    destruct (remote (sent wa)); simpl; (split; [reflexivity|]);
      (split; [simpl; congruence|split; assumption]).
Qed.

Lemma replays_is_dir : replays out bool (is_dir out).
Proof.
  split.
  - intros w. apply grows_refl.
  - intros f1 wa wb Hset Hstep. unfold is_dir in *. simpl in *.
    split; [|exact Hstep]. f_equal.
    apply bool_decide_ext, (in_step_out f1); assumption.
Qed.

Lemma length_child (p : path) (name : string) : length (child p name) = S (length p).
Proof. unfold child. rewrite length_app. simpl. lia. Qed.

Lemma replays_mkdir (sub : string) : replays out unit (mkdir_exist_ok (child out sub)).
Proof.
  pose proof (length_child out sub) as Hlen.
  assert (Hgrow : forall w, grows out (fs w) (fs (snd (mkdir_exist_ok (child out sub) w)))).
  { intros w. unfold mkdir_exist_ok.
    repeat case_match; simpl; try apply grows_refl.
    split; [apply union_subseteq_r|]. split; [|reflexivity].
    intros q Hq Hin. simpl in Hin. apply elem_of_union in Hin as [Hin|Hin]; [|exact Hin].
    apply elem_of_singleton in Hin. subst q. contradiction. }
  split; [exact Hgrow|].
  intros f1 wa wb Hset Hstep.
  pose proof (settles_grows _ _ _ _ (Hgrow wa) Hset) as Hg.
  pose proof (in_step_out f1 wa wb Hg Hstep) as Hout.
  assert (Hfile : forall q : path, length q <> S (S (length out)) ->
                            files (fs wb) !! q = files (fs wa) !! q).
  { intros q Hq. apply (in_step_files f1); assumption. }
  revert Hset. unfold mkdir_exist_ok. cbv zeta. rewrite parent_child.
  rewrite (bool_decide_ext _ _ Hout).
  destruct (bool_decide (out ∈ dirs (fs wa))) eqn:Eout.
  - destruct (bool_decide (child out sub ∈ dirs (fs wa))) eqn:Ea.
    + apply bool_decide_eq_true in Ea.
      rewrite (bool_decide_eq_true_2 _ (in_step_dirs_incl f1 wa wb _ Hg Hstep Ea)).
      intros _. split; [reflexivity|exact Hstep].
    + apply bool_decide_eq_false in Ea.
      rewrite (Hfile (child out sub)) by lia.
      destruct (bool_decide (is_Some (files (fs wa) !! child out sub))) eqn:Ef.
      * simpl. intros Hset. destruct Hstep as (Hsent & Hdirs & Hfiles).
        rewrite bool_decide_eq_false_2 by (rewrite Hdirs, <- Hset; exact Ea).
        split; [reflexivity|]. split; [exact Hsent|]. split; assumption.
      * simpl. intros (Hd & _ & _). destruct Hstep as (Hsent & Hdirs & Hfiles).
        rewrite bool_decide_eq_true_2.
        2:{ rewrite Hdirs. apply Hd. simpl.
            apply elem_of_union_l, elem_of_singleton. reflexivity. }
        split; [reflexivity|]. split; [exact Hsent|]. split; [exact Hdirs|exact Hfiles].
  - rewrite (Hfile out) by lia.
    destruct (bool_decide (is_Some (files (fs wa) !! out)));
      intros _; (split; [reflexivity|exact Hstep]).
Qed.

Lemma replays_write (sub name text : string) :
  replays out unit (write_text (child (child out sub) name) text).
Proof.
  set (d := child out sub). set (p := child d name).
  assert (Hlend : length d = S (length out)) by apply length_child.
  assert (Hlenp : length p = S (S (length out))).
  { unfold p. rewrite length_child, Hlend. reflexivity. }
  assert (Hpar : parent p = d) by apply parent_child.
  assert (Hgrow : forall w, grows out (fs w) (fs (snd (write_text p text w)))).
  { intros w. unfold write_text.
    repeat case_match; simpl; try apply grows_refl.
    split; [reflexivity|]. split; [intros; assumption|].
    intros q Hq. simpl. apply lookup_insert_ne. intros <-. contradiction. }
  split; [exact Hgrow|].
  intros f1 wa wb Hset Hstep.
  pose proof (settles_grows _ _ _ _ (Hgrow wa) Hset) as Hg.
  assert (Hfile : forall q : path, length q <> S (S (length out)) ->
                            files (fs wb) !! q = files (fs wa) !! q).
  { intros q Hq. apply (in_step_files f1); assumption. }
  revert Hset. unfold write_text. cbv zeta. rewrite Hpar.
  destruct (bool_decide (d ∈ dirs (fs wa))) eqn:Ed.
  - apply bool_decide_eq_true in Ed.
    rewrite (bool_decide_eq_true_2 _ (in_step_dirs_incl f1 wa wb _ Hg Hstep Ed)).
    destruct (bool_decide (p ∈ dirs (fs wa))) eqn:Ep.
    + apply bool_decide_eq_true in Ep.
      rewrite (bool_decide_eq_true_2 _ (in_step_dirs_incl f1 wa wb _ Hg Hstep Ep)).
      intros _. split; [reflexivity|exact Hstep].
    + apply bool_decide_eq_false in Ep.
      rewrite bool_decide_eq_false_2.
      2:{ intros Hin. apply Ep. apply (in_step_dirs_back f1 wa wb); try assumption. lia. }
      intros _. split; [reflexivity|].
      destruct Hstep as (Hsent & Hdirs & Hfiles).
      split; [exact Hsent|]. split; [exact Hdirs|].
      intros q. simpl. destruct (decide (p = q)) as [<-|Hne].
      * right. rewrite !lookup_insert_eq. reflexivity.
      * rewrite !lookup_insert_ne by exact Hne. apply Hfiles.
  - apply bool_decide_eq_false in Ed.
    rewrite (Hfile d) by lia.
    destruct (bool_decide (is_Some (files (fs wa) !! d))); simpl; intros Hset;
      destruct Hstep as (Hsent & Hdirs & Hfiles);
      (rewrite bool_decide_eq_false_2 by (rewrite Hdirs, <- Hset; exact Ed));
      (split; [reflexivity|]); (split; [exact Hsent|]); split; assumption.
Qed.

End Replay.

Lemma replays_list_main
    (fromisoformat : string -> option datetime) (remote : nat -> option json)
    (env : environ) (fuel : nat) (args : arguments) :
  replays (arg_out_dir args) Z (ListVariant.main fromisoformat remote env fuel args).
Proof.
  apply (list_main_logic _ (replays_logic (arg_out_dir args))
           fromisoformat remote env (arg_out_dir args)).
  - apply replays_mkdir.
  - apply replays_write.
  - intros req. apply replays_round_trip.
  - reflexivity.
  - apply replays_is_dir.
Qed.

Lemma replays_graph_main
    (fromisoformat : string -> option datetime) (remote : nat -> option json)
    (env : environ) (fuel : nat) (args : arguments) :
  replays (arg_out_dir args) Z (GraphVariant.main fromisoformat remote env fuel args).
Proof.
  apply (graph_main_logic _ (replays_logic (arg_out_dir args))
           fromisoformat remote env (arg_out_dir args)).
  - apply replays_mkdir.
  - intros name d _. apply replays_write.
  - intros vars. apply replays_round_trip.
  - apply replays_client.
  - reflexivity.
  - apply replays_is_dir.
Qed.

(** A program that replays leaves the file system as it finds it when it
    is run on the file system of its own previous run. *)
Lemma replays_twice {A} (out : path) (m : M A) (f0 : filesystem) :
  replays out A m ->
  fst (m (fresh_world (fs (snd (m (fresh_world f0)))))) = fst (m (fresh_world f0)) /\
  fs (snd (m (fresh_world (fs (snd (m (fresh_world f0))))))) = fs (snd (m (fresh_world f0))).
Proof.
  intros [Hgrow Hreplay].
  set (f1 := fs (snd (m (fresh_world f0)))).
  destruct (Hreplay f1 (fresh_world f0) (fresh_world f1)) as [Hout (_ & Hdirs & Hfiles)].
  - destruct (fst (m (fresh_world f0))); simpl; try reflexivity. apply grows_refl.
  - split; [reflexivity|]. split; [reflexivity|]. intros p. left. reflexivity.
  - split; [exact Hout|].
    destruct (fs (snd (m (fresh_world f1)))) as [ds fl]. subst f1.
    destruct (fs (snd (m (fresh_world f0)))) as [ds1 fl1]. simpl in *.
    f_equal; [exact Hdirs|].
    apply map_eq. intros p. destruct (Hfiles p); assumption.
Qed.

(** C8: running either scraper a second time, with the same
    arguments and environment and the same replies of the remote service,
    on the file system the first run has left, ends the same way and
    leaves every directory and every byte of every file as the first run
    left them. *)
Theorem scraping_twice_is_idempotent
    (fromisoformat : string -> option datetime) (remote : nat -> option json)
    (env : environ) (fuel : nat) (args : arguments) (f0 : filesystem) :
  (let once := ListVariant.main fromisoformat remote env fuel args (fresh_world f0) in
   let twice := ListVariant.main fromisoformat remote env fuel args
                  (fresh_world (fs (snd once))) in
   fst twice = fst once /\ fs (snd twice) = fs (snd once)) /\
  (let once := GraphVariant.main fromisoformat remote env fuel args (fresh_world f0) in
   let twice := GraphVariant.main fromisoformat remote env fuel args
                  (fresh_world (fs (snd once))) in
   fst twice = fst once /\ fs (snd twice) = fs (snd once)).
Proof.
  split; cbv zeta.
  - apply (replays_twice (arg_out_dir args)), replays_list_main.
  - apply (replays_twice (arg_out_dir args)), replays_graph_main.
Qed.

Example second_run_changes_nothing :
  let once := ListVariant.main Sample.fromisoformat Sample.one_pull_remote Sample.env 5
                Sample.args (fresh_world Sample.disk) in
  let twice := ListVariant.main Sample.fromisoformat Sample.one_pull_remote Sample.env 5
                 Sample.args (fresh_world (fs (snd once))) in
  fst once = Ret 0 /\ fst twice = Ret 0 /\
  fs (snd once) <> Sample.disk /\ fs (snd twice) = fs (snd once).
Proof.
  vm_compute. repeat split; try reflexivity. discriminate.
Qed.

(** * Further properties of the two programs *)

(** ** Replies the list variant does not expect *)

(** A reply that is not an array fails the assertion of the list
    variant's [scrap_page]: the run ends there, after that one request,
    with nothing written. *)
Theorem list_non_array_reply (remote : nat -> option json) (env : environ)
    (info : ScrapInfo) (page : Z) (w : world) (reply : json) (fuel : nat) :
  remote (sent w) = Some reply ->
  (forall lst, reply <> JArr lst) ->
  let w1 := asked w (EvLog INFO "Scraping page %d" [AInt page])
              (EvGet (ListVariant.request env info page)) in
  ListVariant.scrap_page remote env info page w = (Raise AssertionError, w1) /\
  ListVariant.scrap_from remote env (S fuel) info page w = (Raise AssertionError, w1) /\
  writes (trace w1) = writes (trace w) /\ fs w1 = fs w.
Proof.
  intros Hremote Hshape w1.
  assert (Hpage : ListVariant.scrap_page remote env info page w
                  = (Raise AssertionError, w1)).
  { rewrite (list_scrap_page_reply _ _ _ _ _ _ Hremote).
    destruct reply; try reflexivity. exfalso. eapply Hshape. reflexivity. }
  split; [exact Hpage|]. split; [|split; [|reflexivity]].
  - cbn [ListVariant.scrap_from]. unfold bind. rewrite Hpage. reflexivity.
  - unfold w1, asked, writes. cbn [trace]. rewrite !omap_app. simpl.
    rewrite !app_nil_r. reflexivity.
Qed.

Lemma list_non_array_reply_witness :
  ListVariant.scrap_page (fun _ => Some (JObj [("message", JStr "Not Found")]))
    Sample.env Sample.info 1 (fresh_world Sample.disk)
  = (Raise AssertionError,
     asked (fresh_world Sample.disk) (EvLog INFO "Scraping page %d" [AInt 1])
       (EvGet (ListVariant.request Sample.env Sample.info 1))).
Proof.
  refine (proj1 (list_non_array_reply (fun _ => Some (JObj [("message", JStr "Not Found")]))
            Sample.env Sample.info 1 (fresh_world Sample.disk)
            (JObj [("message", JStr "Not Found")]) O eq_refl _)).
  intros lst. discriminate.
Defined.

(** ** A request that fails *)

(** Neither program tries again: when a request fails, the call of
    [scrap_page] and the loop around it end with the failure, after that
    one request, and the files written so far stay as they are. *)
Theorem failed_request_is_fatal (remote : nat -> option json) (env : environ)
    (client : GraphVariant.Client) (info : ScrapInfo) (page : Z) (cursor : json)
    (w : world) (fuel : nat) (owner name : string) :
  remote (sent w) = None ->
  GraphVariant.split_slash (project info) = [owner; name] ->
  ListVariant.scrap_from remote env (S fuel) info page w
  = (Raise TransportError,
     asked w (EvLog INFO "Scraping page %d" [AInt page])
       (EvGet (ListVariant.request env info page))) /\
  GraphVariant.scrap_from remote (S fuel) client info cursor w
  = (Raise TransportError,
     asked w (EvLog INFO "Scraping page %s" [AJson cursor])
       (EvExecute (GqlVariables owner name (since info) cursor))).
Proof.
  intros Hremote Hsplit. split.
  - cbn [ListVariant.scrap_from]. unfold bind at 1.
    change (ListVariant.scrap_page remote env info page)
      with (bind (log INFO "Scraping page %d" [AInt page])
              (fun _ => bind (round_trip remote (EvGet (ListVariant.request env info page)))
                          (list_after_reply info))).
    unfold bind at 1. cbn [log emit]. unfold bind at 1. unfold round_trip.
    cbn [fs trace sent]. rewrite Hremote. reflexivity.
  - cbn [GraphVariant.scrap_from]. unfold bind at 1.
    change (GraphVariant.scrap_page remote client info cursor)
      with (bind (log INFO "Scraping page %s" [AJson cursor])
              (fun _ => bind (lift (GraphVariant.unpack2 (GraphVariant.split_slash (project info))))
                 (fun on => bind (round_trip remote
                                    (EvExecute (GqlVariables (fst on) (snd on) (since info) cursor)))
                              (graph_after_reply info)))).
    rewrite Hsplit. unfold bind at 1. cbn [log emit].
    rewrite lift_bind. cbn [GraphVariant.unpack2 fst snd].
    unfold bind at 1. unfold round_trip. cbn [fs trace sent]. rewrite Hremote. reflexivity.
Qed.

Lemma failed_request_is_fatal_witness :
  ListVariant.scrap_from (fun _ => None) Sample.env 1 Sample.info 1 (fresh_world Sample.disk)
  = (Raise TransportError,
     asked (fresh_world Sample.disk) (EvLog INFO "Scraping page %d" [AInt 1])
       (EvGet (ListVariant.request Sample.env Sample.info 1))).
Proof.
  exact (proj1 (failed_request_is_fatal (fun _ => None) Sample.env Sample.client
                  Sample.info 1 JNull (fresh_world Sample.disk) O "octo" "demo"
                  eq_refl eq_refl)).
Defined.

(** ** Start-up failures *)

(** Both programs refuse an output directory that does not exist: they
    leave through [sys.exit] with a message naming it, before anything is
    sent or written.  The list variant asks for the token first. *)
Theorem missing_out_dir_is_fatal
    (fromisoformat : string -> option datetime) (remote : nat -> option json)
    (env : environ) (fuel : nat) (args : arguments) (w : world) :
  arg_out_dir args ∉ dirs (fs w) ->
  (GITHUB_TOKEN env <> "" ->
   ListVariant.main fromisoformat remote env fuel args w
   = (SysExit (path_str (arg_out_dir args) +:+ " is not a directory"), w)) /\
  GraphVariant.main fromisoformat remote env fuel args w
  = (SysExit (path_str (arg_out_dir args) +:+ " is not a directory"), w).
Proof.
  intros Hdir. split.
  - intros Htok. unfold ListVariant.main. rewrite (eqb_empty_false _ Htok).
    unfold bind at 1. rewrite (is_dir_false _ _ Hdir). reflexivity.
  - unfold GraphVariant.main. unfold bind at 1.
    rewrite (is_dir_false _ _ Hdir). reflexivity.
Qed.

Lemma missing_out_dir_is_fatal_witness :
  GraphVariant.main Sample.fromisoformat Sample.empty_remote Sample.env 1
    (Arguments None "octo/demo" ["nowhere"]) (fresh_world Sample.disk)
  = (SysExit "nowhere is not a directory", fresh_world Sample.disk).
Proof.
  refine (proj2 (missing_out_dir_is_fatal Sample.fromisoformat Sample.empty_remote
                   Sample.env 1 (Arguments None "octo/demo" ["nowhere"])
                   (fresh_world Sample.disk) _)).
  vm_compute. discriminate.
Defined.

(** The graph variant reads its schema file when it builds the client:
    without the file the run ends with [FileNotFoundError] once the
    directory and the token have passed, and no client is built. *)
Theorem missing_schema_is_fatal
    (fromisoformat : string -> option datetime) (remote : nat -> option json)
    (env : environ) (fuel : nat) (args : arguments) (w : world) :
  arg_out_dir args ∈ dirs (fs w) -> GITHUB_TOKEN env <> "" -> schema env = None ->
  GraphVariant.main fromisoformat remote env fuel args w = (Raise FileNotFoundError, w).
Proof.
  intros Hdir Htok Hschema. unfold GraphVariant.main.
  unfold bind at 1. rewrite (is_dir_true _ _ Hdir). cbn [negb].
  unfold GraphVariant.setup_logger. rewrite bind_ret_l. cbv zeta.
  rewrite (eqb_empty_false _ Htok).
  unfold bind at 1. unfold GraphVariant.create_client. rewrite Hschema. reflexivity.
Qed.

Lemma missing_schema_is_fatal_witness :
  GraphVariant.main Sample.fromisoformat Sample.empty_remote
    (Environ "secret" Sample.clock None) 1 Sample.args (fresh_world Sample.disk)
  = (Raise FileNotFoundError, fresh_world Sample.disk).
Proof.
  refine (missing_schema_is_fatal Sample.fromisoformat Sample.empty_remote
            (Environ "secret" Sample.clock None) 1 Sample.args
            (fresh_world Sample.disk) _ _ eq_refl).
  - vm_compute. reflexivity.
  - discriminate.
Defined.

(** ** Offsets that reach too far back *)

Lemma relative_overflow (n value duration : Z) :
  n < value * duration ->
  obind (timedelta (value * duration)) (now_minus n) = Raise OverflowError.
Proof.
  intros Hlt. unfold timedelta.
  destruct ((-999999999 <=? value * duration / us_per_day)
            && (value * duration / us_per_day <=? 999999999)); [|reflexivity].
  simpl. unfold now_minus.
  replace (0 <=? n - value * duration) with false
    by (symmetry; apply Z.leb_gt; lia).
  reflexivity.
Qed.

(** A relative [--since] is not checked against the calendar: when the
    offset is longer than the time elapsed since the first instant a
    [datetime] can hold, [parse_since] raises [OverflowError] instead of
    leaving with its message, and a number of more than 4300 digits
    raises [ValueError]. *)
Theorem relative_since_out_of_range
    (fromisoformat : string -> option datetime) (env : environ)
    (since digits : string) (unit : ascii) :
  fromisoformat since = None ->
  (fullmatch_value_unit "wdHM" since = Some (digits, unit) ->
   ((int_max_str_digits < String.length digits)%nat ->
    ListVariant.parse_since fromisoformat env since = Raise ValueError) /\
   ((String.length digits <= int_max_str_digits)%nat ->
    now env < decimal_value 0 digits * spec_unit_duration unit ->
    ListVariant.parse_since fromisoformat env since = Raise OverflowError)) /\
  (fullmatch_value_unit "wdh" since = Some (digits, unit) ->
   ((int_max_str_digits < String.length digits)%nat ->
    GraphVariant.parse_since fromisoformat env since = Raise ValueError) /\
   ((String.length digits <= int_max_str_digits)%nat ->
    now env < decimal_value 0 digits * spec_unit_duration unit ->
    GraphVariant.parse_since fromisoformat env since = Raise OverflowError)).
Proof.
  intros Hiso. split; intros Hm.
  - unfold ListVariant.parse_since. rewrite Hiso, Hm. split.
    + intros Hlen. unfold py_int.
      replace (String.length digits <=? int_max_str_digits)%nat with false
        by (symmetry; apply Nat.leb_gt; exact Hlen).
      reflexivity.
    + intros Hlen Hlt. unfold py_int. apply Nat.leb_le in Hlen. rewrite Hlen. simpl.
      apply fullmatch_value_unit_spec in Hm as (_ & _ & _ & Hc).
      apply in_class_wdHM in Hc as [ -> | [ -> | [ -> | -> ] ] ];
        change (spec_unit_duration _) with us_per_week in * ||
        change (spec_unit_duration _) with us_per_day in * ||
        change (spec_unit_duration _) with us_per_hour in * ||
        change (spec_unit_duration _) with us_per_minute in *;
        simpl Ascii.eqb; cbv iota; apply relative_overflow; exact Hlt.
  - unfold GraphVariant.parse_since. rewrite Hiso, Hm. split.
    + intros Hlen. unfold py_int.
      replace (String.length digits <=? int_max_str_digits)%nat with false
        by (symmetry; apply Nat.leb_gt; exact Hlen).
      reflexivity.
    + intros Hlen Hlt. unfold py_int. apply Nat.leb_le in Hlen. rewrite Hlen. simpl.
      apply fullmatch_value_unit_spec in Hm as (_ & _ & _ & Hc).
      apply in_class_wdh in Hc as [ -> | [ -> | -> ] ];
        change (spec_unit_duration _) with us_per_week in * ||
        change (spec_unit_duration _) with us_per_day in * ||
        change (spec_unit_duration _) with us_per_hour in *;
        simpl Ascii.eqb; cbv iota; apply relative_overflow; exact Hlt.
Qed.

Lemma relative_since_out_of_range_witness :
  ListVariant.parse_since Sample.fromisoformat Sample.env "200000w" = Raise OverflowError.
Proof.
  refine (proj2 (proj1 (relative_since_out_of_range Sample.fromisoformat Sample.env
            "200000w" "200000" "w"%char eq_refl) eq_refl) _ _).
  - apply Nat.leb_le. reflexivity.
  - vm_compute. reflexivity.
Defined.

(** ** Items that lack a key *)

(** The list variant creates the category directory before it reads the
    number of an item, and reads the title before it writes: an item
    without ["number"] or without ["title"] ends the run with a
    [KeyError], its directory made and no file written for it. *)
Theorem list_item_missing_key (info : ScrapInfo) (d : list (string * json)) (w : world) :
  out_dir info ∈ dirs (fs w) ->
  let item_dir := child (out_dir info) (list_sub_dir d) in
  (item_dir ∈ dirs (fs w) \/ files (fs w) !! item_dir = None) ->
  forall key,
    (key = "number" /\ Dict.get "number" d = None \/
     key = "title" /\ (exists n, Dict.get "number" d = Some (JInt n)) /\
     Dict.get "title" d = None) ->
    exists w',
      ListVariant.write_item info (JObj d) w = (Raise (KeyError key), w') /\
      dirs (fs w') = {[item_dir]} ∪ dirs (fs w) /\
      files (fs w') = files (fs w) /\
      writes (trace w') = writes (trace w).
Proof.
  intros Hout item_dir Hdir key Hkey.
  assert (Hpd : parent item_dir = out_dir info) by apply parent_child.
  assert (Hrest : forall w1,
            bind (subscript (JObj d) "number")
              (fun item_id =>
                 match item_file_name item_id with
                 | Some name =>
                     bind (subscript (JObj d) "title")
                       (fun title0 =>
                          bind (log INFO "%s #%d: %s"
                                  [AStr (list_sub_dir d); AJson item_id; AJson title0])
                            (fun _ => write_text (child item_dir name)
                                        (Dumps.dumps (JObj d))))
                 | None => lift Unmodelled
                 end) w1
            = (Raise (KeyError key), w1)).
  { intros w1. destruct Hkey as [[-> Hn]|(-> & [n Hn] & Ht)].
    - rewrite (subscript_bind_none _ _ _ _ Hn). reflexivity.
    - rewrite (subscript_bind_some _ _ _ _ _ Hn). cbn [item_file_name].
      rewrite (subscript_bind_none _ _ _ _ Ht). reflexivity. }
  unfold ListVariant.write_item, ListVariant.is_pull_request.
  rewrite lift_bind. cbn [contains].
  fold (list_sub_dir d). fold item_dir.
  unfold bind at 1. unfold mkdir_exist_ok. rewrite Hpd.
  rewrite (bool_decide_eq_true_2 _ Hout).
  destruct (decide (item_dir ∈ dirs (fs w))) as [Hin|Hnin].
  - rewrite (bool_decide_eq_true_2 _ Hin), Hrest.
    exists w. split; [reflexivity|].
    split; [symmetry; apply subseteq_union_1_L, singleton_subseteq_l, Hin|].
    split; reflexivity.
  - rewrite (bool_decide_eq_false_2 _ Hnin).
    destruct Hdir as [Hin|Hnone]; [contradiction|].
    rewrite bool_decide_eq_false_2 by (rewrite Hnone; intros [? ?]; discriminate).
    rewrite Hrest.
    eexists. split; [reflexivity|]. cbn [fs dirs files trace].
    split; [reflexivity|]. split; [reflexivity|].
    unfold writes. rewrite omap_app. simpl. apply app_nil_r.
Qed.

Lemma list_item_missing_key_witness :
  exists w',
    ListVariant.write_item Sample.info (JObj [("number", JInt 7)]) (fresh_world Sample.disk)
    = (Raise (KeyError "title"), w') /\
    dirs (fs w') = {[ ["out"; "issues"] ]} ∪ dirs Sample.disk /\
    files (fs w') = files Sample.disk.
Proof.
  destruct (list_item_missing_key Sample.info [("number", JInt 7)] (fresh_world Sample.disk)
              ltac:(vm_compute; reflexivity) (or_intror eq_refl) "title"
              (or_intror (conj eq_refl (conj (ex_intro _ 7 eq_refl) eq_refl))))
    as (w' & Hrun & Hdirs & Hfiles & _).
  exists w'. split; [exact Hrun|]. split; [exact Hdirs|exact Hfiles].
Defined.

(** ** Sequencing *)

Lemma for_each_app {A} (l1 l2 : list A) (body : A -> M unit) (w : world) :
  for_each (l1 ++ l2) body w = bind (for_each l1 body) (fun _ => for_each l2 body) w.
Proof.
  revert w. induction l1 as [|x l1 IH]; intros w; simpl.
  - reflexivity.
  - unfold bind. cbv beta. destruct (body x w) as [o w1].
    destruct o; try reflexivity.
    rewrite IH. reflexivity.
Qed.

Lemma bind_ret_inv {A B} (m : M A) (k : A -> M B) (w w' : world) (b : B) :
  bind m k w = (Ret b, w') ->
  exists a w1, m w = (Ret a, w1) /\ k a w1 = (Ret b, w').
Proof.
  unfold bind. destruct (m w) as [o w1]. destruct o; try discriminate.
  intros H. eauto.
Qed.

Lemma list_after_reply_items (info : ScrapInfo) (lst : list json) (w : world) :
  lst <> [] ->
  list_after_reply info (JArr lst) w
  = bind (for_each lst (ListVariant.write_item info))
      (fun _ => ret (Z.of_nat (length lst) =? ListVariant.PAGE_SIZE))
      (logged w INFO "Found %d item(s)" [AInt (Z.of_nat (length lst))]).
Proof. intros Hne. destruct lst; [contradiction|reflexivity]. Qed.

(** A page is written item by item, in order, and the first item that
    fails ends the run: the items before it are on disk, the items after
    it are not looked at. *)
Theorem page_stops_at_first_failure (remote : nat -> option json) (env : environ)
    (info : ScrapInfo) (page : Z) (w w2 w3 : world)
    (before after : list json) (bad : json) (e : exn) (fuel : nat) :
  remote (sent w) = Some (JArr (before ++ bad :: after)) ->
  for_each before (ListVariant.write_item info)
    (logged (asked w (EvLog INFO "Scraping page %d" [AInt page])
               (EvGet (ListVariant.request env info page)))
       INFO "Found %d item(s)" [AInt (Z.of_nat (length (before ++ bad :: after)))])
  = (Ret tt, w2) ->
  ListVariant.write_item info bad w2 = (Raise e, w3) ->
  ListVariant.scrap_page remote env info page w = (Raise e, w3) /\
  ListVariant.scrap_from remote env (S fuel) info page w = (Raise e, w3).
Proof.
  intros Hremote Hbefore Hbad.
  assert (Hpage : ListVariant.scrap_page remote env info page w = (Raise e, w3)).
  { rewrite (list_scrap_page_reply _ _ _ _ _ _ Hremote).
    rewrite list_after_reply_items by (destruct before; discriminate).
    unfold bind at 1. rewrite for_each_app. unfold bind at 1.
    rewrite Hbefore. cbn [for_each]. unfold bind at 1. rewrite Hbad. reflexivity. }
  split; [exact Hpage|].
  cbn [ListVariant.scrap_from]. unfold bind. rewrite Hpage. reflexivity.
Qed.

Lemma page_stops_at_first_failure_witness :
  exists w3,
    ListVariant.scrap_page
      (fun _ => Some (JArr [Sample.item 1; JObj [("title", JStr "no number")]; Sample.item 3]))
      Sample.env Sample.info 1 (fresh_world Sample.disk)
    = (Raise (KeyError "number"), w3) /\
    map fst (map_to_list (files (fs w3))) = [ ["out"; "issues"; "1.json"] ].
Proof.
  eexists. split.
  - refine (proj1 (page_stops_at_first_failure
              (fun _ => Some (JArr [Sample.item 1; JObj [("title", JStr "no number")];
                                    Sample.item 3]))
              Sample.env Sample.info 1 (fresh_world Sample.disk) _ _
              [Sample.item 1] [Sample.item 3] (JObj [("title", JStr "no number")])
              (KeyError "number") O eq_refl _ _)).
    + vm_compute. reflexivity.
    + vm_compute. reflexivity.
  - vm_compute. reflexivity.
Defined.

(** ** The list variant's loop as a whole *)

(** What a call of [scrap_page] that returns says about the reply. *)
Lemma list_scrap_page_returns (remote : nat -> option json) (env : environ)
    (info : ScrapInfo) (page : Z) (w w1 : world) (more : bool) :
  ListVariant.scrap_page remote env info page w = (Ret more, w1) ->
  exists lst,
    remote (sent w) = Some (JArr lst) /\
    more = (Z.of_nat (length lst) =? ListVariant.PAGE_SIZE).
Proof.
  intros Hcall.
  destruct (remote (sent w)) as [reply|] eqn:Hremote.
  - rewrite (list_scrap_page_reply _ _ _ _ _ _ Hremote) in Hcall.
    destruct reply as [| | | |lst|]; try discriminate.
    exists lst. split; [reflexivity|].
    destruct lst as [|x lst].
    + injection Hcall as <- _. reflexivity.
    + rewrite list_after_reply_items in Hcall by discriminate.
      apply bind_ret_inv in Hcall as (a & w2 & _ & Hret).
      injection Hret as <- _. reflexivity.
  - exfalso. revert Hcall.
    change (ListVariant.scrap_page remote env info page)
      with (bind (log INFO "Scraping page %d" [AInt page])
              (fun _ => bind (round_trip remote (EvGet (ListVariant.request env info page)))
                          (list_after_reply info))).
    unfold bind at 1. cbn [log emit]. unfold bind at 1. unfold round_trip.
    cbn [fs trace sent]. rewrite Hremote. discriminate.
Qed.

Lemma map_seq_succ {A} (f : nat -> A) (n : nat) :
  map f (seq 1 n) = map (fun i => f (S i)) (seq 0 n).
Proof. rewrite <- seq_shift, map_map. reflexivity. Qed.

(** The pages are asked for in order and without a gap: however a run of
    the loop ends, its requests are those for the page it starts at, the
    next one, and so on, all with the same URL, headers and filter. *)
Theorem list_requests_are_consecutive (remote : nat -> option json) (env : environ)
    (info : ScrapInfo) (fuel : nat) (page : Z) (w : world) :
  exists n,
    sent (snd (ListVariant.scrap_from remote env fuel info page w)) = (sent w + n)%nat /\
    requests (trace (snd (ListVariant.scrap_from remote env fuel info page w)))
    = requests (trace w)
      ++ map (fun i => EvGet (ListVariant.request env info (page + Z.of_nat i))) (seq 0 n).
Proof.
  revert page w. induction fuel as [|fuel IH]; intros page w.
  - exists O. simpl. rewrite app_nil_r. split; [lia|reflexivity].
  - cbn [ListVariant.scrap_from]. unfold bind.
    destruct (list_scrap_page_one_request remote env info page w)
      as (o & w1 & Hcall & Hsent & Hreq).
    rewrite Hcall.
    assert (Hone : requests (trace w1)
                   = requests (trace w)
                     ++ map (fun i => EvGet (ListVariant.request env info (page + Z.of_nat i)))
                          (seq 0 1)).
    { rewrite Hreq. simpl. rewrite Z.add_0_r. reflexivity. }
    destruct o as [more|e|msg| |]; try (exists 1%nat; simpl snd; split; [lia|exact Hone]).
    destruct more; [|exists 1%nat; simpl snd; split; [lia|exact Hone]].
    destruct (IH (page + 1) w1) as (n & Hs & Hr).
    exists (S n). split; [lia|].
    rewrite Hr, Hreq, <- app_assoc. f_equal.
    change (seq 0 (S n)) with (0%nat :: seq 1 n). cbn [map app].
    rewrite Z.add_0_r. f_equal.
    rewrite map_seq_succ. apply map_ext. intros i.
    do 2 f_equal. lia.
Qed.

(** The loop ends normally only on a page that is not full: every reply
    before the last was an array of exactly 100 items, and the last was
    an array of another length. *)
Theorem list_normal_end_saw_short_page (remote : nat -> option json) (env : environ)
    (info : ScrapInfo) (fuel : nat) (page : Z) (w w' : world) :
  ListVariant.scrap_from remote env fuel info page w = (Ret tt, w') ->
  exists n last,
    sent w' = (sent w + S n)%nat /\
    (forall i, (i < n)%nat ->
       exists lst, remote (sent w + i)%nat = Some (JArr lst) /\
                   Z.of_nat (length lst) = ListVariant.PAGE_SIZE) /\
    remote (sent w + n)%nat = Some (JArr last) /\
    Z.of_nat (length last) <> ListVariant.PAGE_SIZE.
Proof.
  revert page w. induction fuel as [|fuel IH]; intros page w; [discriminate|].
  cbn [ListVariant.scrap_from]. intros Hrun.
  apply bind_ret_inv in Hrun as (more & w1 & Hcall & Hrest).
  destruct (list_scrap_page_one_request remote env info page w)
    as (o & w1' & Hcall' & Hsent & _).
  rewrite Hcall in Hcall'. injection Hcall' as <- <-.
  apply list_scrap_page_returns in Hcall as (lst & Hremote & Hmore).
  destruct more.
  - symmetry in Hmore. apply Z.eqb_eq in Hmore.
    apply IH in Hrest as (n & last & Hs & Hfull & Hlast & Hshort).
    exists (S n), last. split; [lia|]. split; [|split].
    + intros i Hi. destruct i as [|i].
      * exists lst. rewrite Nat.add_0_r. split; assumption.
      * destruct (Hfull i ltac:(lia)) as (l & Hl & Hlen).
        exists l. split; [|exact Hlen].
        rewrite <- Hl. f_equal. lia.
    + rewrite <- Hlast. f_equal. lia.
    + exact Hshort.
  - injection Hrest as <-. symmetry in Hmore. apply Z.eqb_neq in Hmore.
    exists O, lst. split; [lia|]. split; [intros i Hi; lia|].
    rewrite Nat.add_0_r. split; assumption.
Qed.

Lemma list_normal_end_saw_short_page_witness :
  exists n last,
    (forall i, (i < n)%nat ->
       exists lst, Sample.one_pull_remote i = Some (JArr lst) /\
                   Z.of_nat (length lst) = ListVariant.PAGE_SIZE) /\
    Sample.one_pull_remote n = Some (JArr last) /\
    Z.of_nat (length last) <> ListVariant.PAGE_SIZE.
Proof.
  destruct (list_normal_end_saw_short_page Sample.one_pull_remote Sample.env
              Sample.info 5 1 (fresh_world Sample.disk)
              (snd (ListVariant.scrap_from Sample.one_pull_remote Sample.env 5
                      Sample.info 1 (fresh_world Sample.disk)))
              ltac:(vm_compute; reflexivity))
    as (n & last & _ & Hfull & Hlast & Hshort).
  exists n, last. split; [exact Hfull|]. split; [exact Hlast|exact Hshort].
Defined.

(** ** A project without issues *)

(** With the token, the directory and [--since] in order, a first page
    that is empty ends the list variant with status 0 after one request:
    nothing is created and nothing is written. *)
Theorem list_empty_project_exits_zero
    (fromisoformat : string -> option datetime) (remote : nat -> option json)
    (env : environ) (fuel : nat) (args : arguments) (w : world)
    (filter : option datetime) :
  GITHUB_TOKEN env <> "" -> arg_out_dir args ∈ dirs (fs w) ->
  resolve_since (ListVariant.parse_since fromisoformat env) (arg_since args) = Ret filter ->
  remote (sent w) = Some (JArr []) ->
  exists w',
    ListVariant.main fromisoformat remote env (S fuel) args w = (Ret 0, w') /\
    exit_status (Ret 0) = Some 0 /\
    fs w' = fs w /\
    writes (trace w') = writes (trace w) /\
    requests (trace w')
    = requests (trace w)
      ++ [EvGet (ListVariant.request env
                   (MkScrapInfo (arg_project args) (arg_out_dir args) filter) 1)].
Proof.
  intros Htok Hdir Hsince Hremote.
  rewrite list_main_started by assumption. rewrite Hsince, lift_bind.
  unfold ListVariant.scrap. cbn [ListVariant.scrap_from].
  destruct filter as [d|]; cbn [since];
    (unfold bind at 1; unfold bind at 1; cbn [log emit];
     unfold bind at 1;
     erewrite list_scrap_page_reply by (cbn [sent]; exact Hremote);
     cbn [list_after_reply]; unfold bind at 1; cbn [log emit bind ret];
     eexists; split; [reflexivity|]; split; [reflexivity|]; split; [reflexivity|];
     cbn [trace asked]; unfold writes, requests; rewrite !omap_app; simpl;
     rewrite !app_nil_r; split; reflexivity).
Qed.

Lemma list_empty_project_exits_zero_witness :
  exists w',
    ListVariant.main Sample.fromisoformat Sample.empty_remote Sample.env 1 Sample.args
      (fresh_world Sample.disk) = (Ret 0, w') /\
    fs w' = Sample.disk.
Proof.
  destruct (list_empty_project_exits_zero Sample.fromisoformat Sample.empty_remote
              Sample.env O Sample.args (fresh_world Sample.disk) None
              ltac:(discriminate) ltac:(vm_compute; reflexivity) eq_refl eq_refl)
    as (w' & Hrun & _ & Hfs & _).
  exists w'. split; [exact Hrun|exact Hfs].
Defined.

(** ** The graph variant on well-shaped replies *)

Lemma graph_after_reply_shape (info : ScrapInfo)
    (result repository issues page_info : list (string * json))
    (edges : json) (items : list json) (w1 w2 : world) :
  Dict.get "repository" result = Some (JObj repository) ->
  Dict.get "issues" repository = Some (JObj issues) ->
  Dict.get "edges" issues = Some edges ->
  Dict.get "pageInfo" issues = Some (JObj page_info) ->
  GraphVariant.iterate edges = Ret items ->
  for_each items (GraphVariant.write_edge info) w1 = (Ret tt, w2) ->
  graph_after_reply info (JObj result) w1 = (next_cursor page_info, w2).
Proof.
  intros Hrep Hiss Hedges Hpi Hiter Hitems. unfold graph_after_reply.
  rewrite (subscript_bind_some _ _ _ _ _ Hrep), (subscript_bind_some _ _ _ _ _ Hiss),
    (subscript_bind_some _ _ _ _ _ Hedges),
    (subscript_bind_some _ _ _ _ _ Hrep), (subscript_bind_some _ _ _ _ _ Hiss),
    (subscript_bind_some _ _ _ _ _ Hpi).
  rewrite lift_bind, Hiter. unfold bind at 1. rewrite Hitems.
  unfold next_cursor.
  destruct (Dict.get "hasNextPage" page_info) as [has_next|] eqn:Eh.
  - rewrite (subscript_bind_some _ _ _ _ _ Eh).
    destruct (truthy has_next); [|reflexivity].
    unfold subscript. destruct (Dict.get "endCursor" page_info); reflexivity.
  - rewrite (subscript_bind_none _ _ _ _ Eh). reflexivity.
Qed.



(** With the start-up checks passed and a well-formed project, a first
    page without items whose flag is false ends the graph variant with
    status 0 after one request, with nothing created or written. *)
Theorem graph_empty_project_exits_zero
    (fromisoformat : string -> option datetime) (remote : nat -> option json)
    (env : environ) (fuel : nat) (args : arguments) (w : world) (text : string)
    (filter : option datetime) (owner name : string)
    (result repository issues page_info : list (string * json)) (has_next : json) :
  GITHUB_TOKEN env <> "" -> arg_out_dir args ∈ dirs (fs w) -> schema env = Some text ->
  resolve_since (GraphVariant.parse_since fromisoformat env) (arg_since args) = Ret filter ->
  GraphVariant.split_slash (arg_project args) = [owner; name] ->
  remote (sent w) = Some (JObj result) ->
  Dict.get "repository" result = Some (JObj repository) ->
  Dict.get "issues" repository = Some (JObj issues) ->
  Dict.get "edges" issues = Some (JArr []) ->
  Dict.get "pageInfo" issues = Some (JObj page_info) ->
  Dict.get "hasNextPage" page_info = Some has_next ->
  truthy has_next = false ->
  exists w',
    GraphVariant.main fromisoformat remote env (S fuel) args w = (Ret 0, w') /\
    fs w' = fs w /\
    writes (trace w') = writes (trace w) /\
    requests (trace w')
    = requests (trace w) ++ [EvExecute (GqlVariables owner name filter JNull)].
Proof.
  intros Htok Hdir Hschema Hsince Hsplit Hremote Hrep Hiss Hedges Hpi Hh Hfalse.
  rewrite (graph_main_started _ _ _ _ _ _ text) by assumption.
  rewrite Hsince, lift_bind.
  unfold GraphVariant.scrap. cbn [GraphVariant.scrap_from].
  assert (Hn : next_cursor page_info = Ret JNull).
  { unfold next_cursor. rewrite Hh, Hfalse. reflexivity. }
  destruct filter as [d|]; cbn [since];
    (unfold bind at 1; unfold bind at 1; cbn [log emit];
     unfold bind at 1;
     erewrite graph_scrap_page_reply by (cbn [sent project]; eassumption);
     erewrite graph_after_reply_shape by (try eassumption; reflexivity);
     rewrite Hn; cbn [bind ret];
     eexists; split; [reflexivity|]; split; [reflexivity|];
     cbn [trace asked since]; unfold writes, requests; rewrite !omap_app; simpl;
     rewrite !app_nil_r; split; reflexivity).
Qed.

Lemma graph_empty_project_exits_zero_witness :
  exists w',
    GraphVariant.main Sample.fromisoformat
      (fun _ => Some (Sample.graph_reply [] (JBool false) JNull))
      Sample.env 1 Sample.args (fresh_world Sample.disk) = (Ret 0, w') /\
    fs w' = Sample.disk.
Proof.
  destruct (graph_empty_project_exits_zero Sample.fromisoformat
              (fun _ => Some (Sample.graph_reply [] (JBool false) JNull))
              Sample.env O Sample.args (fresh_world Sample.disk) "schema" None
              "octo" "demo" _ _ _ _ (JBool false)
              ltac:(discriminate) ltac:(vm_compute; reflexivity) eq_refl eq_refl eq_refl
              eq_refl eq_refl eq_refl eq_refl eq_refl eq_refl eq_refl)
    as (w' & Hrun & Hfs & _).
  exists w'. split; [exact Hrun|exact Hfs].
Defined.

(** ** The record of the graph variant *)

Lemma dict_get_set_ne (k k' : string) (v : json) (d : list (string * json)) :
  k' <> k -> Dict.get k' (Dict.set k v d) = Dict.get k' d.
Proof.
  intros Hne. induction d as [|[k0 v0] d IH]; simpl.
  - destruct (String.eqb_spec k' k); [contradiction|reflexivity].
  - destruct (String.eqb_spec k k0) as [->|Hk]; simpl.
    + destruct (String.eqb_spec k' k0); [contradiction|reflexivity].
    + destruct (String.eqb k' k0); [reflexivity|exact IH].
Qed.

Lemma dict_keys_set (k : string) (v : json) (d : list (string * json)) :
  Dict.keys (Dict.set k v d)
  = if Dict.mem k d then Dict.keys d else Dict.keys d ++ [k].
Proof.
  unfold Dict.mem. induction d as [|[k0 v0] d IH]; simpl; [reflexivity|].
  destruct (String.eqb_spec k k0) as [->|Hk]; simpl; [reflexivity|].
  rewrite IH. destruct (Dict.get k d); reflexivity.
Qed.

(** The item writer of the graph variant.  The node of an edge, with
    an integer number and a title, goes to [out_dir/issues/{number}.json]
    even when it has a ["pull_request"] key.  The text renders the node
    with ["_format"] set to 2: a ["_format"] the service sent is replaced,
    every other field is kept, and the keys keep their order, a new
    ["_format"] coming last. *)
Theorem graph_item_writer (info : ScrapInfo) (edge d : list (string * json)) (n : Z)
    (title : json) (w : world) :
  Dict.get "node" edge = Some (JObj d) ->
  Dict.get "number" d = Some (JInt n) ->
  Dict.get "title" d = Some title ->
  out_dir info ∈ dirs (fs w) ->
  let item_dir := child (out_dir info) "issues" in
  let item_path := child item_dir (pretty n +:+ ".json") in
  (item_dir ∈ dirs (fs w) \/ files (fs w) !! item_dir = None) ->
  item_path ∉ dirs (fs w) ->
  exists w',
    GraphVariant.write_edge info (JObj edge) w = (Ret tt, w') /\
    files (fs w') = <[item_path := Dumps.dumps (JObj (stamp d))]> (files (fs w)) /\
    dirs (fs w') = {[item_dir]} ∪ dirs (fs w) /\
    Dict.get "_format" (stamp d) = Some (JInt 2) /\
    (forall k, k <> "_format" -> Dict.get k (stamp d) = Dict.get k d) /\
    Dict.keys (stamp d)
    = if Dict.mem "_format" d then Dict.keys d else Dict.keys d ++ ["_format"].
Proof.
  intros Hnode Hnum Htitle Hout item_dir item_path Hdir Hpath.
  assert (Hpd : parent item_dir = out_dir info) by apply parent_child.
  assert (Hpp : parent item_path = item_dir) by apply parent_child.
  assert (Hnum' : Dict.get "number" (stamp d) = Some (JInt n)).
  { unfold stamp. rewrite dict_get_set_ne by discriminate. exact Hnum. }
  assert (Htitle' : Dict.get "title" (stamp d) = Some title).
  { unfold stamp. rewrite dict_get_set_ne by discriminate. exact Htitle. }
  assert (Hwrite : forall w1,
            item_dir ∈ dirs (fs w1) -> item_path ∉ dirs (fs w1) ->
            bind (subscript (JObj (stamp d)) "number")
              (fun item_id =>
                 match item_file_name item_id with
                 | Some name =>
                     bind (subscript (JObj (stamp d)) "title")
                       (fun title0 =>
                          bind (log INFO "%s #%d: %s"
                                  [AStr "issues"; AJson item_id; AJson title0])
                            (fun _ => write_text (child item_dir name)
                                        (Dumps.dumps (JObj (stamp d)))))
                 | None => lift Unmodelled
                 end) w1
            = (Ret tt,
               World (Filesystem (dirs (fs w1))
                        (<[item_path := Dumps.dumps (JObj (stamp d))]> (files (fs w1))))
                 ((trace w1 ++ [EvLog INFO "%s #%d: %s"
                                  [AStr "issues"; AJson (JInt n); AJson title]])
                    ++ [EvWrite item_path (Dumps.dumps (JObj (stamp d)))])
                 (sent w1))).
  { intros w1 Hd1 Hp1.
    rewrite (subscript_bind_some _ _ _ _ _ Hnum'). cbn [item_file_name].
    rewrite (subscript_bind_some _ _ _ _ _ Htitle').
    unfold bind at 1. cbn [log emit]. unfold write_text. cbn [fs trace sent].
    fold item_path. rewrite Hpp.
    rewrite (bool_decide_eq_true_2 _ Hd1), (bool_decide_eq_false_2 _ Hp1).
    reflexivity. }
  assert (Hfacts : Dict.get "_format" (stamp d) = Some (JInt 2) /\
                   (forall k, k <> "_format" -> Dict.get k (stamp d) = Dict.get k d) /\
                   Dict.keys (stamp d)
                   = if Dict.mem "_format" d then Dict.keys d
                     else Dict.keys d ++ ["_format"]).
  { split; [apply dict_get_set|]. split; [|apply dict_keys_set].
    intros k Hk. apply dict_get_set_ne, Hk. }
  unfold GraphVariant.write_edge.
  rewrite (subscript_bind_some _ _ _ _ _ Hnode).
  rewrite lift_bind. cbn [GraphVariant.store]. fold (stamp d). fold item_dir.
  unfold bind at 1. unfold mkdir_exist_ok. rewrite Hpd.
  rewrite (bool_decide_eq_true_2 _ Hout).
  destruct (decide (item_dir ∈ dirs (fs w))) as [Hin|Hnin].
  - rewrite (bool_decide_eq_true_2 _ Hin).
    rewrite (Hwrite w Hin Hpath).
    eexists. split; [reflexivity|]. cbn [fs files dirs].
    split; [reflexivity|].
    split; [symmetry; apply subseteq_union_1_L, singleton_subseteq_l, Hin|exact Hfacts].
  - rewrite (bool_decide_eq_false_2 _ Hnin).
    destruct Hdir as [Hin|Hnone]; [contradiction|].
    rewrite bool_decide_eq_false_2 by (rewrite Hnone; intros [? ?]; discriminate).
    set (w1 := World (Filesystem ({[item_dir]} ∪ dirs (fs w)) (files (fs w)))
                 (trace w ++ [EvMkdir item_dir]) (sent w)).
    assert (Hd1 : item_dir ∈ dirs (fs w1)).
    { simpl. apply elem_of_union_l, elem_of_singleton. reflexivity. }
    assert (Hp1 : item_path ∉ dirs (fs w1)).
    { simpl. intros Hin. apply elem_of_union in Hin as [Hin|Hin]; [|contradiction].
      apply elem_of_singleton in Hin. exact (child_neq _ _ Hin). }
    rewrite (Hwrite w1 Hd1 Hp1).
    eexists. split; [reflexivity|]. cbn [fs files dirs w1].
    split; [reflexivity|]. split; [reflexivity|exact Hfacts].
Qed.

Lemma graph_item_writer_witness :
  exists w',
    GraphVariant.write_edge Sample.info (JObj [("node", Sample.pull)]) (fresh_world Sample.disk)
    = (Ret tt, w') /\
    files (fs w')
    = <[ ["out"; "issues"; "7.json"] :=
           Dumps.dumps (JObj [("number", JInt 7); ("title", JStr "Fix bug");
                              ("pull_request", JObj []); ("_format", JInt 2)]) ]>
        (files Sample.disk).
Proof.
  destruct (graph_item_writer Sample.info [("node", Sample.pull)]
              [("number", JInt 7); ("title", JStr "Fix bug"); ("pull_request", JObj [])]
              7 (JStr "Fix bug") (fresh_world Sample.disk) eq_refl eq_refl eq_refl
              ltac:(vm_compute; reflexivity) (or_intror eq_refl)
              ltac:(vm_compute; discriminate))
    as (w' & Hrun & Hfiles & _).
  exists w'. split; [exact Hrun|exact Hfiles].
Defined.

(** ** File names *)

Lemma append_length (s t : string) :
  String.length (s +:+ t) = (String.length s + String.length t)%nat.
Proof. induction s as [|a s IH]; simpl; [reflexivity|]. rewrite IH. reflexivity. Qed.

Lemma append_inj_r (s1 s2 t : string) : s1 +:+ t = s2 +:+ t -> s1 = s2.
Proof.
  revert s2. induction s1 as [|a s1 IH]; intros [|b s2] H.
  - reflexivity.
  - apply (f_equal String.length) in H.
    rewrite !append_length in H. simpl in H. lia.
  - apply (f_equal String.length) in H.
    rewrite !append_length in H. simpl in H. lia.
  - change (String a s1 +:+ t) with (String a (s1 +:+ t)) in H.
    change (String b s2 +:+ t) with (String b (s2 +:+ t)) in H.
    injection H as -> H. f_equal. apply IH, H.
Qed.

(** One file for each item: two items are written to the same path only
    when they are in the same category and have the same number. *)
Theorem item_paths_distinct (out : path) (sub1 sub2 : string) (n m : Z)
    (name1 name2 : string) :
  item_file_name (JInt n) = Some name1 ->
  item_file_name (JInt m) = Some name2 ->
  child (child out sub1) name1 = child (child out sub2) name2 ->
  sub1 = sub2 /\ n = m.
Proof.
  intros [= <-] [= <-] Heq. unfold child in Heq.
  apply app_inj_tail in Heq as [Heq Hname].
  apply app_inj_tail in Heq as [_ Hsub].
  split; [exact Hsub|].
  apply append_inj_r in Hname. exact (pretty_Z_inj _ _ Hname).
Qed.

Lemma item_paths_distinct_witness : "pulls" = "pulls" /\ 7 = 7.
Proof.
  exact (item_paths_distinct ["out"] "pulls" "pulls" 7 7 "7.json" "7.json"
           eq_refl eq_refl eq_refl).
Defined.

(** ** A project with one slash *)

Lemma split_slash_join (s : string) : Dumps.join "/" (GraphVariant.split_slash s) = s.
Proof.
  induction s as [|c s IH]; [reflexivity|].
  cbn [GraphVariant.split_slash].
  destruct (Ascii.eqb_spec c "/") as [->|Hc].
  - pose proof (split_slash_length s) as Hl.
    destruct (GraphVariant.split_slash s) as [|p ps]; [discriminate|].
    change (Dumps.join "/" (EmptyString :: p :: ps))
      with (EmptyString +:+ "/" +:+ Dumps.join "/" (p :: ps)).
    rewrite IH. reflexivity.
  - pose proof (split_slash_length s) as Hl.
    destruct (GraphVariant.split_slash s) as [|p ps]; [discriminate|].
    destruct ps as [|q ps].
    + simpl in *. rewrite IH. reflexivity.
    + change (Dumps.join "/" (String c p :: q :: ps))
        with (String c (p +:+ "/" +:+ Dumps.join "/" (q :: ps))).
      change (Dumps.join "/" (p :: q :: ps))
        with (p +:+ "/" +:+ Dumps.join "/" (q :: ps)) in IH.
      rewrite IH. reflexivity.
Qed.

Lemma split_slash_parts (s : string) :
  Forall (fun part => count_slash part = O) (GraphVariant.split_slash s).
Proof.
  induction s as [|c s IH]; cbn [GraphVariant.split_slash].
  - repeat constructor.
  - destruct (Ascii.eqb c "/") eqn:Ec.
    + constructor; [reflexivity|exact IH].
    + destruct (GraphVariant.split_slash s) as [|p ps].
      * repeat constructor. simpl. rewrite Ec. reflexivity.
      * inversion IH as [|? ? Hp Hps]. subst.
        constructor; [|exact Hps]. simpl. rewrite Ec. exact Hp.
Qed.

(** A project with exactly one slash is taken as it is: the owner is
    what stands before the slash and the name what stands after it,
    either of which may be empty, and the call of [scrap_page] sends one
    request with these two. *)
Theorem project_with_one_slash (remote : nat -> option json)
    (client : GraphVariant.Client) (info : ScrapInfo) (cursor : json) (w : world) :
  count_slash (project info) = 1%nat ->
  exists owner name,
    project info = owner +:+ "/" +:+ name /\
    count_slash owner = O /\ count_slash name = O /\
    requests (trace (snd (GraphVariant.scrap_page remote client info cursor w)))
    = requests (trace w) ++ [EvExecute (GqlVariables owner name (since info) cursor)].
Proof.
  intros Hcount.
  pose proof (split_slash_length (project info)) as Hlen.
  pose proof (split_slash_join (project info)) as Hjoin.
  pose proof (split_slash_parts (project info)) as Hparts.
  destruct (GraphVariant.split_slash (project info)) as [|owner [|name [|x l]]] eqn:Hsplit;
    simpl in Hlen; try lia.
  exists owner, name.
  inversion Hparts as [|? ? Ho Hrest]. inversion Hrest as [|? ? Hn _]. subst.
  split; [symmetry; exact Hjoin|]. split; [exact Ho|]. split; [exact Hn|].
  destruct (graph_scrap_page_one_request remote client info cursor w owner name Hsplit)
    as (o & w' & Hcall & _ & Hreq).
  rewrite Hcall. exact Hreq.
Qed.

Lemma project_with_one_slash_witness :
  exists owner name,
    "/" = owner +:+ "/" +:+ name /\
    count_slash owner = O /\ count_slash name = O /\
    requests (trace (snd (GraphVariant.scrap_page Sample.empty_remote Sample.client
                            (MkScrapInfo "/" Sample.out None) JNull
                            (fresh_world Sample.disk))))
    = requests (trace (fresh_world Sample.disk))
      ++ [EvExecute (GqlVariables owner name None JNull)].
Proof.
  exact (project_with_one_slash Sample.empty_remote Sample.client
           (MkScrapInfo "/" Sample.out None) JNull (fresh_world Sample.disk) eq_refl).
Defined.

(** ** What a run leaves alone *)

Section Confined.

Variable good : path -> string -> Prop.
Variable allowed : path -> Prop.










End Confined.

(** The list variant, followed with the record of each item in hand. *)
Section ListItems.

Variable P : forall A : Type, M A -> Prop.
Hypothesis HP : program_logic P.

Variable fromisoformat : string -> option datetime.
Variable remote : nat -> option json.
Variable env : environ.
Variable out : path.

Hypothesis Hmkdir : forall pr : bool,
    P unit (mkdir_exist_ok (child out (if pr then "pulls" else "issues"))).
Hypothesis Hwrite : forall d n,
    Dict.get "number" d = Some (JInt n) ->
    P unit (write_text (child (child out (list_sub_dir d)) (pretty n +:+ ".json"))
              (Dumps.dumps (JObj d))).
Hypothesis Hget : forall req, P json (round_trip remote (EvGet req)).



End ListItems.



(** ** Sorted keys *)

Lemma key_le_trans (a b c : string * string) : key_le a b -> key_le b c -> key_le a c.
Proof.
  unfold key_le. intros Hab Hbc.
  apply Is_true_true. apply Is_true_true in Hab, Hbc.
  exact (@transitivity _ String.le _ _ _ _ Hab Hbc).
Qed.

Lemma sorted_head_least (a : string * string) (l : list (string * string)) :
  Sorted key_le (a :: l) -> forall b, b ∈ a :: l -> key_le a b.
Proof.
  intros Hs. apply Sorted_StronglySorted in Hs; [|intros x y z; apply key_le_trans].
  apply StronglySorted_inv in Hs as [_ Hall].
  intros b Hb. apply elem_of_cons in Hb as [->|Hb].
  - unfold key_le. destruct (String.leb_total (fst a) (fst a)); assumption.
  - rewrite Forall_forall in Hall. apply Hall, Hb.
Qed.

(** Two sorted lists of entries with the same entries and distinct keys
    are the same list. *)
Lemma sorted_entries_unique (l1 l2 : list (string * string)) :
  Sorted key_le l1 -> Sorted key_le l2 -> l1 ≡ₚ l2 -> NoDup (map fst l1) -> l1 = l2.
Proof.
  revert l2. induction l1 as [|a l1 IH]; intros l2 Hs1 Hs2 Hperm Hnd.
  - apply Permutation_nil_l in Hperm. congruence.
  - destruct l2 as [|b l2]; [apply Permutation_nil_r in Hperm; discriminate|].
    assert (Ha : a ∈ b :: l2) by (rewrite <- Hperm; left).
    assert (Hb : b ∈ a :: l1) by (rewrite Hperm; left).
    assert (Hkey : fst a = fst b).
    { apply String.leb_antisym.
      - exact (sorted_head_least _ _ Hs1 b Hb).
      - exact (sorted_head_least _ _ Hs2 a Ha). }
    assert (Heq : a = b).
    { apply elem_of_cons in Hb as [Hb|Hb]; [congruence|].
      exfalso. apply NoDup_cons in Hnd as [Hnotin _].
      apply Hnotin. rewrite Hkey. apply list_elem_of_fmap. exists b. split; [reflexivity|exact Hb]. }
    subst b. f_equal. apply IH.
    + inversion Hs1. assumption.
    + inversion Hs2. assumption.
    + eapply Permutation_cons_inv. exact Hperm.
    + apply NoDup_cons in Hnd as [_ Hnd]. exact Hnd.
Qed.

(** With [sort_keys=True] the text of a record does not depend on the
    order of its fields: two records with the same fields, keys distinct,
    are rendered alike, at any depth of nesting. *)
Theorem dumps_ignores_key_order (d1 d2 : list (string * json)) (level : nat) :
  NoDup (Dict.keys d1) -> d1 ≡ₚ d2 ->
  Dumps.encode level (JObj d1) = Dumps.encode level (JObj d2) /\
  Dumps.dumps (JObj d1) = Dumps.dumps (JObj d2).
Proof.
  intros Hnd Hperm.
  assert (Hsort : forall lvl,
            Dumps.sort_items (map (fun e : string * json => (fst e, Dumps.encode lvl (snd e))) d1)
            = Dumps.sort_items (map (fun e : string * json => (fst e, Dumps.encode lvl (snd e))) d2)).
  { intros lvl. apply sorted_entries_unique.
    - apply sort_items_sorted.
    - apply sort_items_sorted.
    - rewrite !sort_items_perm. apply Permutation_map, Hperm.
    - rewrite sort_items_perm, map_map. exact Hnd. }
  split.
  - cbn [Dumps.encode]. rewrite Hsort. reflexivity.
  - unfold Dumps.dumps. cbn [Dumps.encode]. rewrite Hsort. reflexivity.
Qed.

Lemma dumps_ignores_key_order_witness :
  Dumps.dumps (JObj [("title", JStr "Fix bug"); ("number", JInt 7)])
  = Dumps.dumps (JObj [("number", JInt 7); ("title", JStr "Fix bug")]).
Proof.
  refine (proj2 (dumps_ignores_key_order [("title", JStr "Fix bug"); ("number", JInt 7)]
                   [("number", JInt 7); ("title", JStr "Fix bug")] O _ _)).
  - apply (bool_decide_unpack _). vm_compute. exact I.
  - apply Permutation_swap.
Defined.

(** ** Pages and items of the wrong shape *)

(** The graph variant reads the edges and the page information of a
    reply before it writes anything: a reply without ["pageInfo"], or
    whose edges are null, a number or a boolean, ends the call with an
    error and not one of its items is written. *)
Theorem graph_page_is_read_first (remote : nat -> option json)
    (client : GraphVariant.Client) (info : ScrapInfo) (cursor : json) (w : world)
    (owner name : string) (result repository issues : list (string * json))
    (edges : json) :
  GraphVariant.split_slash (project info) = [owner; name] ->
  remote (sent w) = Some (JObj result) ->
  Dict.get "repository" result = Some (JObj repository) ->
  Dict.get "issues" repository = Some (JObj issues) ->
  Dict.get "edges" issues = Some edges ->
  let w1 := asked w (EvLog INFO "Scraping page %s" [AJson cursor])
              (EvExecute (GqlVariables owner name (since info) cursor)) in
  (Dict.get "pageInfo" issues = None ->
   GraphVariant.scrap_page remote client info cursor w = (Raise (KeyError "pageInfo"), w1)) /\
  (forall page_info,
     Dict.get "pageInfo" issues = Some page_info ->
     GraphVariant.iterate edges = Raise TypeError ->
     GraphVariant.scrap_page remote client info cursor w = (Raise TypeError, w1)) /\
  writes (trace w1) = writes (trace w) /\ fs w1 = fs w.
Proof.
  intros Hsplit Hremote Hrep Hiss Hedges w1.
  rewrite (graph_scrap_page_reply _ _ _ _ _ _ _ _ Hsplit Hremote).
  unfold graph_after_reply.
  rewrite (subscript_bind_some _ _ _ _ _ Hrep), (subscript_bind_some _ _ _ _ _ Hiss),
    (subscript_bind_some _ _ _ _ _ Hedges),
    (subscript_bind_some _ _ _ _ _ Hrep), (subscript_bind_some _ _ _ _ _ Hiss).
  fold w1. split; [|split; [|split]].
  - intros Hpi. rewrite (subscript_bind_none _ _ _ _ Hpi). reflexivity.
  - intros page_info Hpi Hiter.
    rewrite (subscript_bind_some _ _ _ _ _ Hpi), lift_bind, Hiter. reflexivity.
  - unfold w1, asked, writes. cbn [trace]. rewrite !omap_app. simpl.
    rewrite !app_nil_r. reflexivity.
  - reflexivity.
Qed.

Lemma graph_page_is_read_first_witness :
  GraphVariant.scrap_page
    (fun _ => Some (JObj [("repository",
                           JObj [("issues",
                                  JObj [("edges",
                                         JArr [JObj [("node", Sample.item 1)]])])])]))
    Sample.client Sample.info JNull (fresh_world Sample.disk)
  = (Raise (KeyError "pageInfo"),
     asked (fresh_world Sample.disk) (EvLog INFO "Scraping page %s" [AJson JNull])
       (EvExecute (GqlVariables "octo" "demo" None JNull))).
Proof.
  refine (proj1 (graph_page_is_read_first
                   (fun _ => Some (JObj [("repository",
                                          JObj [("issues",
                                                 JObj [("edges",
                                                        JArr [JObj [("node", Sample.item 1)]])])])]))
                   Sample.client Sample.info JNull
                   (fresh_world Sample.disk) "octo" "demo"
                   [("repository",
                     JObj [("issues",
                            JObj [("edges", JArr [JObj [("node", Sample.item 1)]])])])]
                   [("issues", JObj [("edges", JArr [JObj [("node", Sample.item 1)]])])]
                   [("edges", JArr [JObj [("node", Sample.item 1)]])]
                   (JArr [JObj [("node", Sample.item 1)]])
                   eq_refl eq_refl eq_refl eq_refl eq_refl) eq_refl).
Defined.

(** An item of a page that is not an object is fatal to the list
    variant: whatever it is and whatever the disk holds, [write_item]
    ends with an exception and no file is written. *)
Theorem list_item_not_an_object (info : ScrapInfo) (dct : json) (w : world) :
  (forall d, dct <> JObj d) ->
  exists e w',
    ListVariant.write_item info dct w = (Raise e, w') /\
    files (fs w') = files (fs w) /\
    writes (trace w') = writes (trace w).
Proof.
  intros Hshape. unfold ListVariant.write_item, ListVariant.is_pull_request.
  rewrite lift_bind.
  assert (Hmk : forall p (k : unit -> M unit),
            (forall w1, files (fs w1) = files (fs w) ->
                        writes (trace w1) = writes (trace w) ->
                        k tt w1 = (Raise TypeError, w1)) ->
            exists e w',
              bind (mkdir_exist_ok p) k w = (Raise e, w') /\
              files (fs w') = files (fs w) /\ writes (trace w') = writes (trace w)).
  { intros p k Hk. unfold bind, mkdir_exist_ok.
    repeat case_match; simplify_eq;
      try (eexists _, _; split; [reflexivity|split; reflexivity]).
    - eexists _, _. split; [apply Hk; reflexivity|split; reflexivity].
    - eexists _, _. split; [apply Hk; [reflexivity|]|split; [reflexivity|]];
        cbn [trace]; unfold writes; rewrite omap_app; simpl; apply app_nil_r. }
  destruct dct as [| | |s|l|d]; cbn [contains];
    try (eexists _, _; split; [reflexivity|split; reflexivity]).
  - apply Hmk. intros w1 _ _. reflexivity.
  - apply Hmk. intros w1 _ _. reflexivity.
  - exfalso. eapply Hshape. reflexivity.
Qed.

Lemma list_item_not_an_object_witness :
  exists e w',
    ListVariant.write_item Sample.info (JStr "pull_request") (fresh_world Sample.disk)
    = (Raise e, w') /\
    files (fs w') = files Sample.disk /\
    writes (trace w') = [].
Proof.
  refine (list_item_not_an_object Sample.info (JStr "pull_request")
            (fresh_world Sample.disk) _).
  intros d. discriminate.
Defined.

(** ** The cursors of a run *)

(** In a run of the graph variant's loop only the cursor changes from
    one request to the next: every request carries the owner, the name
    and the filter of the run; the first carries the cursor the loop
    starts with and none of the later ones a null cursor. *)
Theorem graph_requests_are_chained (remote : nat -> option json)
    (client : GraphVariant.Client) (info : ScrapInfo) (owner name : string) :
  GraphVariant.split_slash (project info) = [owner; name] ->
  forall fuel cursor w,
    exists later,
      requests (trace (snd (GraphVariant.scrap_from remote fuel client info cursor w)))
      = requests (trace w)
        ++ map (fun c => EvExecute (GqlVariables owner name (since info) c))
             (match fuel with O => [] | S _ => cursor :: later end) /\
      Forall (fun c => c <> JNull) later /\
      sent (snd (GraphVariant.scrap_from remote fuel client info cursor w))
      = (sent w + match fuel with O => O | S _ => S (length later) end)%nat.
Proof.
  intros Hsplit fuel. induction fuel as [|fuel IH]; intros cursor w.
  - exists []. simpl. rewrite app_nil_r. split; [reflexivity|]. split; [constructor|lia].
  - cbn [GraphVariant.scrap_from]. unfold bind.
    destruct (graph_scrap_page_one_request remote client info cursor w owner name Hsplit)
      as (o & w1 & Hcall & Hsent & Hreq).
    rewrite Hcall.
    assert (Hstop : exists later,
               requests (trace w1)
               = requests (trace w)
                 ++ map (fun c => EvExecute (GqlVariables owner name (since info) c))
                      (cursor :: later) /\
               Forall (fun c => c <> JNull) later /\
               sent w1 = (sent w + S (length later))%nat).
    { exists []. split; [exact Hreq|]. split; [constructor|simpl; lia]. }
    destruct o as [next|e|msg| |]; try exact Hstop.
    destruct fuel as [|fuel].
    + destruct next; exact Hstop.
    + assert (Hgo : next <> JNull ->
                exists later,
                  requests (trace (snd (GraphVariant.scrap_from remote (S fuel) client info
                                         next w1)))
                  = requests (trace w)
                    ++ map (fun c => EvExecute (GqlVariables owner name (since info) c))
                         (cursor :: later) /\
                  Forall (fun c => c <> JNull) later /\
                  sent (snd (GraphVariant.scrap_from remote (S fuel) client info next w1))
                  = (sent w + S (length later))%nat).
      { intros Hne. destruct (IH next w1) as (later & Hr & Hall & Hs).
        exists (next :: later). split; [|split].
        - rewrite Hr, Hreq, <- app_assoc. reflexivity.
        - constructor; assumption.
        - rewrite Hs, Hsent. simpl. lia. }
      destruct next; try (apply Hgo; discriminate). exact Hstop.
Qed.

Lemma graph_requests_are_chained_witness :
  exists later,
    requests (trace (snd (GraphVariant.scrap_from Sample.two_pages 5 Sample.client
                            Sample.info JNull (fresh_world Sample.disk))))
    = requests (trace (fresh_world Sample.disk))
      ++ map (fun c => EvExecute (GqlVariables "octo" "demo" None c)) (JNull :: later) /\
    Forall (fun c => c <> JNull) later /\
    sent (snd (GraphVariant.scrap_from Sample.two_pages 5 Sample.client
                 Sample.info JNull (fresh_world Sample.disk)))
    = (0 + S (length later))%nat.
Proof.
  exact (graph_requests_are_chained Sample.two_pages Sample.client Sample.info
           "octo" "demo" eq_refl 5%nat JNull (fresh_world Sample.disk)).
Defined.
